(** * The JSON-LD credential format service

    A shallow embedding of
    [packages/core/src/modules/credentials/formats/jsonld/JsonLdCredentialFormatService.ts]
    and of the helpers it relies on, followed by the properties of the
    format adapter that its design document states.

    Layout: Part I holds the definitions (JavaScript values, the attachment
    codec, the collaborators, the operations of the service, sample data);
    Part II holds the lemmas and theorems. *)

From Stdlib Require Import String Ascii List ZArith NArith Bool Arith Lia.
From Stdlib Require Import DecimalString DecimalN.
Import ListNotations.

Local Open Scope string_scope.

(* ================================================================== *)
(** * Part I. Definitions                                              *)
(* ================================================================== *)

(** ** JavaScript values *)

(** A decoded JSON payload. Numbers are kept as integers: the credential
    payloads handled here carry strings, and fractions are outside the
    model. An object keeps its members in the order they were written. *)
#[local] Unset Elimination Schemes.
Inductive json : Type :=
| JNull
| JBool (b : bool)
| JNum (z : Z)
| JStr (s : string)
| JArr (elements : list json)
| JObj (members : list (string * json)).
#[local] Set Elimination Schemes.

(** A JavaScript value as the service sees it: [None] is [undefined]. *)
Definition value : Type := option json.

Definition undefined : value := None.

(** What the code can throw. *)
Inductive Error : Type :=
| AriesFrameworkError (message : string)
| TypeError (message : string)
| SyntaxError (message : string)
| CollaboratorError (message : string).

(** The outcome of a call that either returns or throws. *)
Inductive Result (A : Type) : Type :=
| Returns (a : A)
| Throws (e : Error).

Arguments Returns {A} a.
Arguments Throws {A} e.

Definition bindR {A B} (r : Result A) (k : A -> Result B) : Result B :=
  match r with
  | Returns a => k a
  | Throws e => Throws e
  end.

Declare Scope result_scope.
Delimit Scope result_scope with result.
Notation "'let?' x ':=' r 'in' k" := (bindR r (fun x => k))
  (at level 10, x name, r at level 100, k at level 200) : result_scope.

(** [o[k]] for an own member of a parsed object: when a name is written
    twice the later member wins, as with [JSON.parse]. *)
Fixpoint lookup (k : string) (members : list (string * json)) : value :=
  match members with
  | [] => None
  | (k', v) :: rest =>
      match lookup k rest with
      | Some w => Some w
      | None => if String.eqb k k' then Some v else None
      end
  end.

(** Reading property [k] of [v]. Reading from [undefined] or [null] throws
    a [TypeError]; an object yields its member or [undefined]; the other
    values have no property of the names the service reads ([credential],
    [options], [proofType], [created], ...), so the result is [undefined]. *)
Definition get (v : value) (k : string) : Result value :=
  match v with
  | None =>
      Throws (TypeError ("Cannot read properties of undefined (reading '"
                           ++ k ++ "')"))
  | Some JNull =>
      Throws (TypeError ("Cannot read properties of null (reading '"
                           ++ k ++ "')"))
  | Some (JObj members) => Returns (lookup k members)
  | Some _ => Returns undefined
  end.

(** [delete o[k]]: every member of that name goes. *)
Definition delete (k : string) (j : json) : json :=
  match j with
  | JObj members =>
      JObj (filter (fun kv => negb (String.eqb k (fst kv))) members)
  | _ => j
  end.

(** JavaScript truthiness, as used by [!x] and [x && y]. *)
Definition truthy (v : value) : bool :=
  match v with
  | None => false
  | Some JNull => false
  | Some (JBool b) => b
  | Some (JNum z) => negb (Z.eqb z 0)
  | Some (JStr s) => negb (String.eqb s "")
  | Some (JArr _) => true
  | Some (JObj _) => true
  end.

(** [a === b] for two values that come from two separately built objects
    (the received credential and the decoded request): primitives are
    compared by value, and two arrays or two objects are two distinct
    references, hence never identical. *)
Definition strict_eq (a b : value) : bool :=
  match a, b with
  | None, None => true
  | Some JNull, Some JNull => true
  | Some (JBool x), Some (JBool y) => Bool.eqb x y
  | Some (JNum x), Some (JNum y) => Z.eqb x y
  | Some (JStr x), Some (JStr y) => String.eqb x y
  | _, _ => false
  end.

(** The decimal digits of a natural number, and of an integer. *)
Definition digits (n : N) : string := NilEmpty.string_of_uint (N.to_uint n).

Definition string_of_Z (z : Z) : string :=
  match z with
  | Z0 => "0"
  | Zpos p => digits (Npos p)
  | Zneg p => String "-" (digits (Npos p))
  end.

(** [String(v)], the conversion a template literal applies. *)
Fixpoint js_String_json (j : json) : string :=
  match j with
  | JNull => "null"
  | JBool true => "true"
  | JBool false => "false"
  | JNum z => string_of_Z z
  | JStr s => s
  | JArr l =>
      String.concat ","
        (map (fun e => match e with JNull => "" | _ => js_String_json e end) l)
  | JObj _ => "[object Object]"
  end.

Definition js_String (v : value) : string :=
  match v with
  | None => "undefined"
  | Some j => js_String_json j
  end.

(** [xs.join(sep)] on an array of strings. *)
Definition join (sep : string) (xs : list string) : string :=
  String.concat sep xs.

(** ** Base64 *)

(** Modelled from the spec: the base64 step of the attachment codec
    (section 4.1), which is not among the sources: the standard alphabet
    with [=] padding. A sextet is six bits, most significant bit first. *)
Definition sextet : Type := (bool * bool * bool * bool * bool * bool)%type.

Definition alphabet : string :=
  "ABCDEFGHIJKLMNOPQRSTUVWXYZabcdefghijklmnopqrstuvwxyz0123456789+/".

Definition bit (b : bool) (weight : nat) : nat := if b then weight else 0.

Definition sextet_index (x : sextet) : nat :=
  let '(b5, b4, b3, b2, b1, b0) := x in
  bit b5 32 + bit b4 16 + bit b3 8 + bit b2 4 + bit b1 2 + bit b0 1.

Definition sextet_of_index (n : nat) : sextet :=
  (Nat.testbit n 5, Nat.testbit n 4, Nat.testbit n 3,
   Nat.testbit n 2, Nat.testbit n 1, Nat.testbit n 0).

Definition encode_sextet (x : sextet) : ascii :=
  match String.get (sextet_index x) alphabet with
  | Some c => c
  | None => "="%char
  end.

Fixpoint index_of (c : ascii) (s : string) : option nat :=
  match s with
  | EmptyString => None
  | String d rest =>
      if Ascii.eqb c d then Some 0 else option_map S (index_of c rest)
  end.

Definition decode_sextet (c : ascii) : option sextet :=
  option_map sextet_of_index (index_of c alphabet).

(** Three bytes are four sextets (bits listed most significant first;
    [Ascii] lists them least significant first). *)
Definition sextets_of_bytes (a b c : ascii) : sextet * sextet * sextet * sextet :=
  let '(Ascii a0 a1 a2 a3 a4 a5 a6 a7) := a in
  let '(Ascii b0 b1 b2 b3 b4 b5 b6 b7) := b in
  let '(Ascii c0 c1 c2 c3 c4 c5 c6 c7) := c in
  ((a7, a6, a5, a4, a3, a2), (a1, a0, b7, b6, b5, b4),
   (b3, b2, b1, b0, c7, c6), (c5, c4, c3, c2, c1, c0)).

Definition bytes_of_sextets (w x y z : sextet) : ascii * ascii * ascii :=
  let '(a7, a6, a5, a4, a3, a2) := w in
  let '(a1, a0, b7, b6, b5, b4) := x in
  let '(b3, b2, b1, b0, c7, c6) := y in
  let '(c5, c4, c3, c2, c1, c0) := z in
  (Ascii a0 a1 a2 a3 a4 a5 a6 a7,
   Ascii b0 b1 b2 b3 b4 b5 b6 b7,
   Ascii c0 c1 c2 c3 c4 c5 c6 c7).

Fixpoint base64_encode (s : string) : string :=
  match s with
  | EmptyString => EmptyString
  | String a EmptyString =>
      let '(w, x, _, _) := sextets_of_bytes a zero zero in
      String (encode_sextet w) (String (encode_sextet x) "==")
  | String a (String b EmptyString) =>
      let '(w, x, y, _) := sextets_of_bytes a b zero in
      String (encode_sextet w)
        (String (encode_sextet x) (String (encode_sextet y) "="))
  | String a (String b (String c rest)) =>
      let '(w, x, y, z) := sextets_of_bytes a b c in
      String (encode_sextet w)
        (String (encode_sextet x)
           (String (encode_sextet y)
              (String (encode_sextet z) (base64_encode rest))))
  end.

Definition is_pad (c : ascii) : bool := Ascii.eqb c "=".

(** Strict decoding: whole groups of four characters of the alphabet,
    padding only in the last group. *)
Fixpoint base64_decode (s : string) : option string :=
  match s with
  | EmptyString => Some EmptyString
  | String c1 (String c2 (String c3 (String c4 rest))) =>
      match decode_sextet c1, decode_sextet c2 with
      | Some w, Some x =>
          match rest with
          | EmptyString =>
              if is_pad c4 then
                if is_pad c3 then
                  let '(a, _, _) := bytes_of_sextets w x (sextet_of_index 0)
                                      (sextet_of_index 0) in
                  Some (String a EmptyString)
                else
                  match decode_sextet c3 with
                  | Some y =>
                      let '(a, b, _) := bytes_of_sextets w x y
                                          (sextet_of_index 0) in
                      Some (String a (String b EmptyString))
                  | None => None
                  end
              else
                match decode_sextet c3, decode_sextet c4 with
                | Some y, Some z =>
                    let '(a, b, c) := bytes_of_sextets w x y z in
                    Some (String a (String b (String c EmptyString)))
                | _, _ => None
                end
          | String _ _ =>
              match decode_sextet c3, decode_sextet c4, base64_decode rest with
              | Some y, Some z, Some tail =>
                  let '(a, b, c) := bytes_of_sextets w x y z in
                  Some (String a (String b (String c tail)))
              | _, _, _ => None
              end
          end
      | _, _ => None
      end
  | _ => None
  end.

(** ** JSON text *)

(** Modelled from the spec: [JsonEncoder.toBase64] and
    [V1Attachment.getDataAsJson] are not among the sources; section 4.1 says
    that encoding serializes the payload to JSON and base64-encodes it, and
    that decoding is the inverse and fails on a body that is not valid
    base64-encoded JSON. [JSON_stringify] and [JSON_parse] are the two
    halves of the JSON step, on byte strings. *)

(** The quotation mark. *)
Definition dquote : ascii := Eval cbv in ascii_of_nat 34.

Definition hex_digit (n : nat) : ascii :=
  match String.get n "0123456789abcdef" with
  | Some c => c
  | None => "0"%char
  end.

Definition hex_value (c : ascii) : option nat :=
  match index_of c "0123456789abcdef" with
  | Some n => Some n
  | None => option_map (fun n => n + 10) (index_of c "ABCDEF")
  end.

(** The escape [JSON.stringify] writes for one character of a string. *)
Definition escape (c : ascii) : string :=
  let n := nat_of_ascii c in
  if Ascii.eqb c dquote then String "\" (String dquote "")
  else if Ascii.eqb c "\" then "\\"
  else if Nat.eqb n 8 then "\b"
  else if Nat.eqb n 9 then "\t"
  else if Nat.eqb n 10 then "\n"
  else if Nat.eqb n 12 then "\f"
  else if Nat.eqb n 13 then "\r"
  else if Nat.ltb n 32 then
    String "\" (String "u" (String "0" (String "0"
      (String (hex_digit (n / 16)) (String (hex_digit (n mod 16)) "")))))
  else String c "".

Fixpoint escape_all (s : string) : string :=
  match s with
  | EmptyString => EmptyString
  | String c rest => escape c ++ escape_all rest
  end.

Definition quote (s : string) : string :=
  String dquote (escape_all s ++ String dquote "").

Fixpoint JSON_stringify (j : json) : string :=
  match j with
  | JNull => "null"
  | JBool true => "true"
  | JBool false => "false"
  | JNum z => string_of_Z z
  | JStr s => quote s
  | JArr l => "[" ++ String.concat "," (map JSON_stringify l) ++ "]"
  | JObj m =>
      "{" ++ String.concat ","
               (map (fun kv => quote (fst kv) ++ ":" ++ JSON_stringify (snd kv)) m)
          ++ "}"
  end.

Definition is_ws (c : ascii) : bool :=
  let n := nat_of_ascii c in
  Nat.eqb n 32 || Nat.eqb n 9 || Nat.eqb n 10 || Nat.eqb n 13.

Fixpoint skip_ws (s : string) : string :=
  match s with
  | EmptyString => EmptyString
  | String c rest => if is_ws c then skip_ws rest else s
  end.

(** [strip p s] removes the prefix [p] from [s]. *)
Fixpoint strip (p s : string) : option string :=
  match p, s with
  | EmptyString, _ => Some s
  | String a p', String b s' => if Ascii.eqb a b then strip p' s' else None
  | String _ _, EmptyString => None
  end.

(** The bytes of the UTF-8 encoding of a code unit below [65536]. *)
Definition utf8 (cp : nat) : string :=
  if Nat.ltb cp 128 then String (ascii_of_nat cp) ""
  else if Nat.ltb cp 2048 then
    String (ascii_of_nat (192 + cp / 64))
      (String (ascii_of_nat (128 + cp mod 64)) "")
  else
    String (ascii_of_nat (224 + cp / 4096))
      (String (ascii_of_nat (128 + (cp / 64) mod 64))
         (String (ascii_of_nat (128 + cp mod 64)) "")).

Definition unescape (c : ascii) : option ascii :=
  if Ascii.eqb c dquote then Some dquote
  else if Ascii.eqb c "\" then Some "\"%char
  else if Ascii.eqb c "/" then Some "/"%char
  else if Ascii.eqb c "b" then Some (ascii_of_nat 8)
  else if Ascii.eqb c "t" then Some (ascii_of_nat 9)
  else if Ascii.eqb c "n" then Some (ascii_of_nat 10)
  else if Ascii.eqb c "f" then Some (ascii_of_nat 12)
  else if Ascii.eqb c "r" then Some (ascii_of_nat 13)
  else None.

Definition unicode_escape (h1 h2 h3 h4 : ascii) : option string :=
  match hex_value h1, hex_value h2, hex_value h3, hex_value h4 with
  | Some a, Some b, Some c, Some d =>
      Some (utf8 (((a * 16 + b) * 16 + c) * 16 + d))
  | _, _, _, _ => None
  end.

Definition prepend (p : string) (r : option (string * string))
  : option (string * string) :=
  match r with
  | Some (s, rest) => Some (p ++ s, rest)
  | None => None
  end.

(** The characters of a string literal, after its opening quote, up to and
    including the closing quote; the second component is what follows. *)
Fixpoint parse_chars (s : string) : option (string * string) :=
  match s with
  | EmptyString => None
  | String c r =>
      if Ascii.eqb c dquote then Some (EmptyString, r)
      else if Ascii.eqb c "\" then
        match r with
        | EmptyString => None
        | String e r1 =>
            if Ascii.eqb e "u" then
              match r1 with
              | String h1 (String h2 (String h3 (String h4 r2))) =>
                  match unicode_escape h1 h2 h3 h4 with
                  | Some p => prepend p (parse_chars r2)
                  | None => None
                  end
              | _ => None
              end
            else
              match unescape e with
              | Some c' => prepend (String c' "") (parse_chars r1)
              | None => None
              end
        end
      else if Nat.ltb (nat_of_ascii c) 32 then None
      else prepend (String c "") (parse_chars r)
  end.

Definition is_digit (c : ascii) : bool :=
  let n := nat_of_ascii c in Nat.leb 48 n && Nat.leb n 57.

(** The longest prefix of digits, and what follows it. *)
Fixpoint span_digits (s : string) : string * string :=
  match s with
  | EmptyString => (EmptyString, EmptyString)
  | String c r =>
      if is_digit c then
        let '(ds, rest) := span_digits r in (String c ds, rest)
      else (EmptyString, s)
  end.

Definition starts_fraction (s : string) : bool :=
  match s with
  | EmptyString => false
  | String c _ => Ascii.eqb c "." || Ascii.eqb c "e" || Ascii.eqb c "E"
  end.

(** An integer literal: no leading zero, no fraction and no exponent. *)
Definition parse_natural (s : string) : option (N * string) :=
  let '(ds, rest) := span_digits s in
  match ds with
  | EmptyString => None
  | String d ds' =>
      if Ascii.eqb d "0" && negb (String.eqb ds' "") then None
      else if starts_fraction rest then None
      else
        match NilEmpty.uint_of_string ds with
        | Some u => Some (N.of_uint u, rest)
        | None => None
        end
  end.

Definition parse_number (s : string) : option (json * string) :=
  match s with
  | EmptyString => None
  | String c r =>
      if Ascii.eqb c "-" then
        match parse_natural r with
        | Some (n, rest) => Some (JNum (- Z.of_N n), rest)
        | None => None
        end
      else
        match parse_natural s with
        | Some (n, rest) => Some (JNum (Z.of_N n), rest)
        | None => None
        end
  end.

Definition starts_number (c : ascii) : bool :=
  is_digit c || Ascii.eqb c "-".

Definition literal (word : string) (j : json) (s : string)
  : option (json * string) :=
  match strip word s with
  | Some rest => Some (j, rest)
  | None => None
  end.

(** Recursive descent; [fuel] bounds the nesting and the number of
    elements, and [JSON_parse] supplies the length of the text. *)
Fixpoint parse_value (fuel : nat) (s : string) : option (json * string) :=
  match fuel with
  | O => None
  | S fuel' =>
      match skip_ws s with
      | EmptyString => None
      | String c r =>
          if starts_number c then parse_number (String c r)
          else if Ascii.eqb c "n" then literal "ull" JNull r
          else if Ascii.eqb c "t" then literal "rue" (JBool true) r
          else if Ascii.eqb c "f" then literal "alse" (JBool false) r
          else if Ascii.eqb c dquote then
            match parse_chars r with
            | Some (str, rest) => Some (JStr str, rest)
            | None => None
            end
          else if Ascii.eqb c "[" then
            match skip_ws r with
            | EmptyString => None
            | String d r' =>
                if Ascii.eqb d "]" then Some (JArr [], r')
                else
                  match parse_elements fuel' (String d r') with
                  | Some (l, rest) => Some (JArr l, rest)
                  | None => None
                  end
            end
          else if Ascii.eqb c "{" then
            match skip_ws r with
            | EmptyString => None
            | String d r' =>
                if Ascii.eqb d "}" then Some (JObj [], r')
                else
                  match parse_members fuel' (String d r') with
                  | Some (m, rest) => Some (JObj m, rest)
                  | None => None
                  end
            end
          else None
      end
  end

with parse_elements (fuel : nat) (s : string) : option (list json * string) :=
  match fuel with
  | O => None
  | S fuel' =>
      match parse_value fuel' s with
      | Some (v, r) =>
          match skip_ws r with
          | EmptyString => None
          | String c r' =>
              if Ascii.eqb c "," then
                match parse_elements fuel' r' with
                | Some (l, rest) => Some (v :: l, rest)
                | None => None
                end
              else if Ascii.eqb c "]" then Some ([v], r')
              else None
          end
      | None => None
      end
  end

with parse_members (fuel : nat) (s : string)
  : option (list (string * json) * string) :=
  match fuel with
  | O => None
  | S fuel' =>
      match skip_ws s with
      | EmptyString => None
      | String q r =>
          if Ascii.eqb q dquote then
            match parse_chars r with
            | Some (k, r1) =>
                match skip_ws r1 with
                | EmptyString => None
                | String colon r2 =>
                    if Ascii.eqb colon ":" then
                      match parse_value fuel' r2 with
                      | Some (v, r3) =>
                          match skip_ws r3 with
                          | EmptyString => None
                          | String c r4 =>
                              if Ascii.eqb c "," then
                                match parse_members fuel' r4 with
                                | Some (m, rest) => Some ((k, v) :: m, rest)
                                | None => None
                                end
                              else if Ascii.eqb c "}" then Some ([(k, v)], r4)
                              else None
                          end
                      | None => None
                      end
                    else None
                end
            | None => None
            end
          else None
      end
  end.

Definition JSON_parse (s : string) : option json :=
  match parse_value (String.length s) s with
  | Some (j, rest) =>
      match skip_ws rest with
      | EmptyString => Some j
      | String _ _ => None
      end
  | None => None
  end.

(** ** Attachments *)

(** Modelled from the spec: the attachment wire shape of section 6, with
    the body under [data.base64]. *)
Record V1AttachmentData : Type := { base64 : string }.

(** Modelled from the spec: [V1Attachment] (section 6): an id, a media
    type and the encoded body. *)
Record V1Attachment : Type := {
  attachment_id : string;
  mimeType : string;
  data : V1AttachmentData
}.

(** Modelled from the spec: [JsonEncoder.toBase64] (section 4.1, the body
    of [encode]): the payload as JSON text, base64-encoded. *)
Definition toBase64 (payload : json) : string :=
  base64_encode (JSON_stringify payload).

Definition MalformedAttachmentError : Error :=
  SyntaxError "attachment body is not valid base64-encoded JSON".

(** Modelled from the spec: [V1Attachment.getDataAsJson] (section 4.1,
    [decode]): the inverse of the encoding, failing on a body that is not
    valid base64-encoded JSON. *)
Definition getDataAsJson (a : V1Attachment) : Result json :=
  match base64_decode (base64 (data a)) with
  | Some text =>
      match JSON_parse text with
      | Some j => Returns j
      | None => Throws MalformedAttachmentError
      end
  | None => Throws MalformedAttachmentError
  end.

Definition getFormatData (payload : json) (id : string) : V1Attachment :=
  {| attachment_id := id;
     mimeType := "application/json";
     data := {| base64 := toBase64 payload |} |}.

(** ** The data model *)

Definition JSONLD_VC_DETAIL : string := "aries/ld-proof-vc-detail@v1.0".
Definition JSONLD_VC : string := "aries/ld-proof-vc@1.0".

Definition formatKey : string := "jsonld".
Definition credentialRecordType : string := "w3c".

(** Modelled from the spec: [CredentialFormatSpec], the format descriptor
    of section 3: the identifier of the format, and the attachment id that
    ties it to its payload. *)
Record CredentialFormatSpec : Type := {
  spec_attachId : string;
  spec_format : string
}.

(** Modelled from the spec: the issuer of a credential (section 4.6): a
    bare identifier, or an object with an [id]. *)
Inductive Issuer : Type :=
| IssuerString (did : string)
| IssuerObject (id : string).

(** Modelled from the spec: [W3cCredential], a transformed and validated
    claim set (section 3): its issuer, and its plain form. *)
Record W3cCredential : Type := {
  issuer : Issuer;
  plain : json
}.

(** Modelled from the spec: [LinkedDataProof] (section 3), reduced to the
    members the service reads. Each is kept as a JavaScript value, so that
    a member may be absent. *)
Record LinkedDataProof : Type := {
  proof_type : value;
  proof_proofPurpose : value;
  proof_created : value;
  proof_domain : value;
  proof_challenge : value
}.

(** Modelled from the spec: the proof of a credential is one proof, or an
    array of proofs (sections 3 and 4.8). *)
Inductive SingleOrArray (A : Type) : Type :=
| Single (a : A)
| Many (l : list A).

Arguments Single {A} a.
Arguments Many {A} l.

(** Modelled from the spec: [W3cVerifiableCredential] (section 3): a claim
    set and its proof. *)
Record W3cVerifiableCredential : Type := {
  unsigned : W3cCredential;
  proof : SingleOrArray LinkedDataProof
}.

(** Modelled from the spec: a verification method of an identity document
    (glossary): its identifier and its key type. *)
Record VerificationMethod : Type := {
  vm_id : string;
  vm_type : string
}.

(** Modelled from the spec: the identity document the resolver returns
    (section 4.6), with its verification methods in document order. *)
Record DidDocument : Type := {
  did : string;
  verificationMethods : list VerificationMethod
}.

(** Modelled from the spec: the answer of the verification service
    (section 6): [{verified, error?}]. *)
Record W3cVerifyCredentialResult : Type := {
  verified : bool;
  error : value
}.

(** Modelled from the spec: the stored record, of which the service reads
    the id (section 4.7). *)
Record W3cCredentialRecord : Type := { record_id : string }.

(** Modelled from the spec: one [(recordType, recordId)] reference of the
    exchange record (section 3). *)
Record CredentialRecordBinding : Type := {
  binding_credentialRecordType : string;
  binding_credentialRecordId : string
}.

(** Modelled from the spec: what the caller of [acceptRequest] may pass
    under [credentialFormats.jsonld] (section 4.5): an explicit
    verification method, or none. *)
Record JsonLdAcceptRequestFormat : Type := {
  verificationMethod : option string
}.

(** Modelled from the spec: the [credentialFormats] argument, with its
    optional [jsonld] member. *)
Record CredentialFormats : Type := {
  jsonld : option JsonLdAcceptRequestFormat
}.

(** ** Collaborators *)

(** The imports of the service whose sources are absent: the class
    transformer with its validation ([JsonTransformer.fromJSON] at the three
    classes the service names, and [toJSON]), the plain view
    [JSON.stringify] takes of a signed credential, [areObjectsEqual], and
    the identifier [CredentialFormatSpec] mints when it is given none. They
    are parameters of every operation. *)
Record Utils : Type := {
  fromJSON_JsonLdCredentialDetail : value -> Result unit;
  fromJSON_W3cCredential : value -> Result W3cCredential;
  fromJSON_W3cVerifiableCredential : value -> Result W3cVerifiableCredential;
  toJSON : W3cVerifiableCredential -> json;
  stringifyView : W3cVerifiableCredential -> json;
  areObjectsEqual : json -> value -> bool;
  uuid : string
}.

Record DidResolverService : Type := {
  resolveDidDocument : string -> Result DidDocument
}.

Record W3cCredentialService : Type := {
  getVerificationMethodTypesByProofType : value -> Result (option (list string));
  signCredential :
    W3cCredential -> value -> string -> Result W3cVerifiableCredential;
  verifyCredential :
    W3cVerifiableCredential -> Result (option W3cVerifyCredentialResult);
  storeCredential : W3cVerifiableCredential -> Result W3cCredentialRecord
}.

(** What [agentContext.dependencyManager.resolve] hands out. *)
Record AgentContext : Type := {
  didResolverService : DidResolverService;
  w3cCredentialService : W3cCredentialService
}.

(** ** Effects *)

(** A call the service makes to a collaborator. *)
Inductive Call : Type :=
| ResolveDidDocument (did : string)
| GetVerificationMethodTypesByProofType (proofType : value)
| SignCredential (credential : W3cCredential) (proofType : value)
    (verificationMethod : string)
| VerifyCredential (credential : W3cVerifiableCredential)
| StoreCredential (credential : W3cVerifiableCredential).

(** What an operation can change: the credential bindings of the exchange
    record it was handed, and the log of the calls made so far. *)
Record World : Type := {
  credentials : list CredentialRecordBinding;
  calls : list Call
}.

Definition M (A : Type) : Type := World -> Result A * World.

Definition ret {A} (a : A) : M A := fun w => (Returns a, w).

Definition throw {A} (e : Error) : M A := fun w => (Throws e, w).

Definition bind {A B} (m : M A) (k : A -> M B) : M B :=
  fun w =>
    match m w with
    | (Returns a, w') => k a w'
    | (Throws e, w') => (Throws e, w')
    end.

Definition lift {A} (r : Result A) : M A := fun w => (r, w).

(** A call to a collaborator: logged, then its outcome. *)
Definition call {A} (c : Call) (outcome : Result A) : M A :=
  fun w =>
    (outcome, {| credentials := credentials w; calls := calls w ++ [c] |}).

(** [credentialRecord.credentials.push(b)]. *)
Definition push (b : CredentialRecordBinding) : M unit :=
  fun w =>
    (Returns tt, {| credentials := credentials w ++ [b]; calls := calls w |}).

(** The world after some more calls, and after one more binding. *)
Definition withCalls (w : World) (made : list Call) : World :=
  {| credentials := credentials w; calls := calls w ++ made |}.

Definition withBinding (w : World) (b : CredentialRecordBinding) : World :=
  {| credentials := credentials w ++ [b]; calls := calls w |}.

Declare Scope effect_scope.
Delimit Scope effect_scope with effect.
Notation "'let*' x ':=' m 'in' k" := (bind m (fun x => k))
  (at level 10, x name, m at level 100, k at level 200) : effect_scope.

(** ** The operations of the service *)

(** Modelled from the spec: the constructor of [CredentialFormatSpec]
    (section 4.3: the attachment id is reused if supplied, else a new one is
    minted). *)
Definition newCredentialFormatSpec (u : Utils) (attachId : option string)
    (format : string) : CredentialFormatSpec :=
  {| spec_attachId := match attachId with Some i => i | None => uuid u end;
     spec_format := format |}.

Definition acceptProposal (u : Utils) (attachId : option string)
    (proposalAttachment : V1Attachment)
  : Result (CredentialFormatSpec * V1Attachment) :=
  (let format := newCredentialFormatSpec u attachId JSONLD_VC_DETAIL in
   let? credentialProposal := getDataAsJson proposalAttachment in
   let? _ := fromJSON_JsonLdCredentialDetail u (Some credentialProposal) in
   let offerData := credentialProposal in
   let attachment := getFormatData offerData (spec_attachId format) in
   Returns (format, attachment))%result.

Definition acceptOffer (u : Utils) (attachId : option string)
    (offerAttachment : V1Attachment)
  : Result (CredentialFormatSpec * V1Attachment) :=
  (let? credentialOffer := getDataAsJson offerAttachment in
   let? _ := fromJSON_JsonLdCredentialDetail u (Some credentialOffer) in
   let format := newCredentialFormatSpec u attachId JSONLD_VC_DETAIL in
   let attachment := getFormatData credentialOffer (spec_attachId format) in
   Returns (format, attachment))%result.

(** Modelled from the spec: [findVerificationMethodByKeyType] (section 4.6:
    search the identity document for a verification method of that key
    type; the first match is the one selected). [None] is [null]. *)
Definition findVerificationMethodByKeyType (keyType : string)
    (didDocument : DidDocument) : option VerificationMethod :=
  find (fun m => String.eqb (vm_type m) keyType)
       (verificationMethods didDocument).

Definition issuerId (i : Issuer) : string :=
  match i with
  | IssuerString did => did
  | IssuerObject id => id
  end.

Definition deriveVerificationMethod (agentContext : AgentContext) (u : Utils)
    (credentialAsJson : value) (credentialRequest : value) : M string :=
  (let didResolver := didResolverService agentContext in
   let w3c := w3cCredentialService agentContext in
   let* credential := lift (fromJSON_W3cCredential u credentialAsJson) in
   let issuerDid := issuerId (issuer credential) in
   let* issuerDidDocument :=
     call (ResolveDidDocument issuerDid)
          (resolveDidDocument didResolver issuerDid) in
   let* options := lift (get credentialRequest "options") in
   let* proofType := lift (get options "proofType") in
   let* keyType :=
     call (GetVerificationMethodTypesByProofType proofType)
          (getVerificationMethodTypesByProofType w3c proofType) in
   match keyType with
   | None | Some [] =>
       throw (AriesFrameworkError
                ("No Key Type found for proofType " ++ js_String proofType))
   | Some ((first :: _) as keyTypes) =>
       match findVerificationMethodByKeyType first issuerDidDocument with
       | None =>
           throw (AriesFrameworkError
                    ("Missing verification method for key type "
                       ++ join "," keyTypes))
       | Some verificationMethod => ret (vm_id verificationMethod)
       end
   end)%effect.

(** [credentialFormats?.jsonld?.verificationMethod] *)
Definition suppliedVerificationMethod (credentialFormats : option CredentialFormats)
  : option string :=
  match credentialFormats with
  | Some formats =>
      match jsonld formats with
      | Some f => verificationMethod f
      | None => None
      end
  | None => None
  end.

(** The initialiser of [verificationMethod] in [acceptRequest]:
    [credentialFormats?.jsonld?.verificationMethod ??
     (await this.deriveVerificationMethod(...))]. The right operand, with
    its argument [credentialRequest.credential], is evaluated only when the
    left one is [undefined]. *)
Definition chooseVerificationMethod (agentContext : AgentContext) (u : Utils)
    (credentialFormats : option CredentialFormats) (credentialRequest : json)
  : M string :=
  match suppliedVerificationMethod credentialFormats with
  | Some supplied => ret supplied
  | None =>
      (let* credentialAsJson :=
         lift (get (Some credentialRequest) "credential") in
       deriveVerificationMethod agentContext u credentialAsJson
         (Some credentialRequest))%effect
  end.

Definition unsupportedFields : list string :=
  ["challenge"; "domain"; "credentialStatus"; "created"].

(** [fields.filter((field) => options[field] !== undefined)]; reading a
    field of [undefined] or [null] options throws. *)
Fixpoint filterDefined (options : value) (fields : list string)
  : Result (list string) :=
  match fields with
  | [] => Returns []
  | field :: rest =>
      (let? v := get options field in
       let? found := filterDefined options rest in
       Returns (match v with
                | Some _ => field :: found
                | None => found
                end))%result
  end.

Definition acceptRequest (agentContext : AgentContext) (u : Utils)
    (credentialFormats : option CredentialFormats) (attachId : option string)
    (requestAttachment : V1Attachment)
  : M (CredentialFormatSpec * V1Attachment) :=
  (let w3c := w3cCredentialService agentContext in
   let* credentialRequest := lift (getDataAsJson requestAttachment) in
   let* verificationMethod :=
     chooseVerificationMethod agentContext u credentialFormats
       credentialRequest in
   if String.eqb verificationMethod EmptyString then
     throw (AriesFrameworkError "Missing verification method in credential data")
   else
     let format := newCredentialFormatSpec u attachId JSONLD_VC in
     let* options := lift (get (Some credentialRequest) "options") in
     let* foundFields := lift (filterDefined options unsupportedFields) in
     if Nat.ltb 0 (List.length foundFields) then
       throw (AriesFrameworkError
                ("Some fields are not currently supported in credential options: "
                   ++ join ", " foundFields))
     else
       let* credentialAsJson := lift (get (Some credentialRequest) "credential") in
       let* credential := lift (fromJSON_W3cCredential u credentialAsJson) in
       let* options' := lift (get (Some credentialRequest) "options") in
       let* proofType := lift (get options' "proofType") in
       let* verifiableCredential :=
         call (SignCredential credential proofType verificationMethod)
              (signCredential w3c credential proofType verificationMethod) in
       let attachment :=
         getFormatData (stringifyView u verifiableCredential)
                       (spec_attachId format) in
       ret (format, attachment))%effect.

Definition verifyReceivedCredentialMatchesRequest (u : Utils)
    (credential : W3cVerifiableCredential) (request : json) : Result unit :=
  let jsonCredential := delete "proof" (toJSON u credential) in
  match proof credential with
  | Many _ =>
      Throws (AriesFrameworkError "Credential proof arrays are not supported")
  | Single p =>
      (let? options := get (Some request) "options" in
       let? created := get options "created" in
       if truthy created && negb (strict_eq (proof_created p) created) then
         Throws (AriesFrameworkError
           "Received credential proof created does not match created from credential request")
       else
       let? domain := get options "domain" in
       if negb (strict_eq (proof_domain p) domain) then
         Throws (AriesFrameworkError
           "Received credential proof domain does not match domain from credential request")
       else
       let? challenge := get options "challenge" in
       if negb (strict_eq (proof_challenge p) challenge) then
         Throws (AriesFrameworkError
           "Received credential proof challenge does not match challenge from credential request")
       else
       let? proofType := get options "proofType" in
       if negb (strict_eq (proof_type p) proofType) then
         Throws (AriesFrameworkError
           "Received credential proof type does not match proof type from credential request")
       else
       let? proofPurpose := get options "proofPurpose" in
       if negb (strict_eq (proof_proofPurpose p) proofPurpose) then
         Throws (AriesFrameworkError
           "Received credential proof purpose does not match proof purpose from credential request")
       else
       let? requested := get (Some request) "credential" in
       if negb (areObjectsEqual u jsonCredential requested) then
         Throws (AriesFrameworkError
           "Received credential does not match credential request")
       else Returns tt)%result
  end.

Definition processCredential (agentContext : AgentContext) (u : Utils)
    (attachment requestAttachment : V1Attachment) : M unit :=
  (let w3c := w3cCredentialService agentContext in
   let* credentialAsJson := lift (getDataAsJson attachment) in
   let* credential :=
     lift (fromJSON_W3cVerifiableCredential u (Some credentialAsJson)) in
   let* requestAsJson := lift (getDataAsJson requestAttachment) in
   let* _ :=
     lift (verifyReceivedCredentialMatchesRequest u credential requestAsJson) in
   let* result :=
     call (VerifyCredential credential) (verifyCredential w3c credential) in
   match result with
   | Some {| verified := false; error := e |} =>
       throw (AriesFrameworkError
                ("Failed to validate credential, error = " ++ js_String e))
   | _ =>
       let* verifiableCredential :=
         call (StoreCredential credential) (storeCredential w3c credential) in
       push {| binding_credentialRecordType := credentialRecordType;
               binding_credentialRecordId := record_id verifiableCredential |}
   end)%effect.

Definition supportsFormat (format : string) : bool :=
  let supportedFormats := [JSONLD_VC_DETAIL; JSONLD_VC] in
  existsb (String.eqb format) supportedFormats.

Definition shouldAutoRespondToCredential (u : Utils)
    (requestAttachment credentialAttachment : V1Attachment) : Result bool :=
  (let? credentialJson := getDataAsJson credentialAttachment in
   let? w3cCredential :=
     fromJSON_W3cVerifiableCredential u (Some credentialJson) in
   let? request := getDataAsJson requestAttachment in
   match verifyReceivedCredentialMatchesRequest u w3cCredential request with
   | Returns _ => Returns true
   | Throws _ => Returns false
   end)%result.

(** ** Measures and induction on payloads *)

Section JsonInduction.
Variable P : json -> Prop.
Hypothesis Hnull : P JNull.
Hypothesis Hbool : forall b, P (JBool b).
Hypothesis Hnum : forall z, P (JNum z).
Hypothesis Hstr : forall s, P (JStr s).
Hypothesis Harr : forall l, Forall P l -> P (JArr l).
Hypothesis Hobj : forall m, Forall (fun kv => P (snd kv)) m -> P (JObj m).

Fixpoint json_ind (j : json) : P j :=
  match j with
  | JNull => Hnull
  | JBool b => Hbool b
  | JNum z => Hnum z
  | JStr s => Hstr s
  | JArr l =>
      Harr l
        ((fix all (l : list json) : Forall P l :=
            match l with
            | [] => Forall_nil P
            | v :: l' => Forall_cons v (json_ind v) (all l')
            end) l)
  | JObj m =>
      Hobj m
        ((fix all (m : list (string * json))
            : Forall (fun kv => P (snd kv)) m :=
            match m with
            | [] => Forall_nil _
            | kv :: m' => Forall_cons kv (json_ind (snd kv)) (all m')
            end) m)
  end.
End JsonInduction.

(** The fuel the parser needs for a payload: one unit per value and one
    per element or member. *)
Fixpoint size (j : json) : nat :=
  match j with
  | JArr l => S (list_sum (map (fun v => S (size v)) l))
  | JObj m => S (list_sum (map (fun kv => S (size (snd kv))) m))
  | _ => 1
  end.

(** What may follow a value inside a JSON text: nothing, or one of the
    separators [,], []] and [}]. *)
Definition terminated (rest : string) : bool :=
  match rest with
  | EmptyString => true
  | String c _ => Ascii.eqb c "," || Ascii.eqb c "]" || Ascii.eqb c "}"
  end.

Definition starts_digit (s : string) : bool :=
  match s with
  | EmptyString => false
  | String c _ => is_digit c
  end.

(** The text of the elements of an array, and of the members of an
    object, as [JSON_stringify] lays them out. *)
Definition elements_text (l : list json) : string :=
  String.concat "," (map JSON_stringify l).

Definition member_text (kv : string * json) : string :=
  quote (fst kv) ++ ":" ++ JSON_stringify (snd kv).

Definition members_text (m : list (string * json)) : string :=
  String.concat "," (map member_text m).

(** [present members field] is the one-element list of [field] when the
    object has a member of that name, and the empty list otherwise. *)
Definition present (members : list (string * json)) (field : string)
  : list string :=
  match lookup field members with
  | Some _ => [field]
  | None => []
  end.

(** ** The error taxonomy *)

(** The design document names the failures; the code tells them apart by
    their messages. *)
Definition UnsupportedOptionError (fields : list string) : Error :=
  AriesFrameworkError
    ("Some fields are not currently supported in credential options: "
       ++ join ", " fields).

Definition MissingVerificationMethodError : Error :=
  AriesFrameworkError "Missing verification method in credential data".

Definition UnsupportedProofTypeError (proofType : value) : Error :=
  AriesFrameworkError
    ("No Key Type found for proofType " ++ js_String proofType).

Definition VerificationMethodNotFoundError (keyTypes : list string) : Error :=
  AriesFrameworkError
    ("Missing verification method for key type " ++ join "," keyTypes).

Definition ProofArrayUnsupportedError : Error :=
  AriesFrameworkError "Credential proof arrays are not supported".

Definition CreatedMismatchError : Error :=
  AriesFrameworkError
    "Received credential proof created does not match created from credential request".

Definition VerificationFailedError (reason : value) : Error :=
  AriesFrameworkError
    ("Failed to validate credential, error = " ++ js_String reason).

(** ** A reference instance of the collaborators *)

(** A small instance of everything the service is parameterised by, used
    to run the operations on concrete exchanges. *)

Definition validationFailed : Error := CollaboratorError "validation failed".

Definition sample_fromJSON_JsonLdCredentialDetail (v : value) : Result unit :=
  match v with
  | Some (JObj m) =>
      match lookup "credential" m, lookup "options" m with
      | Some (JObj _), Some (JObj o) =>
          match lookup "proofType" o with
          | Some (JStr _) => Returns tt
          | _ => Throws validationFailed
          end
      | _, _ => Throws validationFailed
      end
  | _ => Throws validationFailed
  end.

Definition sample_issuer (m : list (string * json)) : option Issuer :=
  match lookup "issuer" m with
  | Some (JStr did) => Some (IssuerString did)
  | Some (JObj i) =>
      match lookup "id" i with
      | Some (JStr id) => Some (IssuerObject id)
      | _ => None
      end
  | _ => None
  end.

Definition sample_fromJSON_W3cCredential (v : value) : Result W3cCredential :=
  match v with
  | Some (JObj m) =>
      match sample_issuer m with
      | Some i => Returns {| issuer := i; plain := JObj m |}
      | None => Throws validationFailed
      end
  | _ => Throws validationFailed
  end.

Definition sample_proof (j : json) : LinkedDataProof :=
  let m := match j with JObj m => m | _ => [] end in
  {| proof_type := lookup "type" m;
     proof_proofPurpose := lookup "proofPurpose" m;
     proof_created := lookup "created" m;
     proof_domain := lookup "domain" m;
     proof_challenge := lookup "challenge" m |}.

Definition sample_fromJSON_W3cVerifiableCredential (v : value)
  : Result W3cVerifiableCredential :=
  match v with
  | Some (JObj m) =>
      match sample_issuer m, lookup "proof" m with
      | Some i, Some (JObj p) =>
          Returns {| unsigned := {| issuer := i; plain := JObj m |};
                     proof := Single (sample_proof (JObj p)) |}
      | Some i, Some (JArr ps) =>
          Returns {| unsigned := {| issuer := i; plain := JObj m |};
                     proof := Many (map sample_proof ps) |}
      | _, _ => Throws validationFailed
      end
  | _ => Throws validationFailed
  end.

(** Modelled from the spec: [areObjectsEqual], the EqualityChecker of
    section 2: deep structural equality of two payloads; the members of an
    object are compared by name, whatever their order. *)
Fixpoint deep_equal (a b : json) : bool :=
  match a, b with
  | JNull, JNull => true
  | JBool x, JBool y => Bool.eqb x y
  | JNum x, JNum y => Z.eqb x y
  | JStr x, JStr y => String.eqb x y
  | JArr xs, JArr ys =>
      (fix all (xs ys : list json) : bool :=
         match xs, ys with
         | [], [] => true
         | x :: xs', y :: ys' => deep_equal x y && all xs' ys'
         | _, _ => false
         end) xs ys
  | JObj m, JObj m' =>
      Nat.eqb (List.length m) (List.length m')
      && forallb (fun kv =>
                    match lookup (fst kv) m' with
                    | Some w => deep_equal (snd kv) w
                    | None => false
                    end) m
  | _, _ => false
  end.

Definition sampleUtils : Utils :=
  {| fromJSON_JsonLdCredentialDetail := sample_fromJSON_JsonLdCredentialDetail;
     fromJSON_W3cCredential := sample_fromJSON_W3cCredential;
     fromJSON_W3cVerifiableCredential := sample_fromJSON_W3cVerifiableCredential;
     toJSON := fun c => plain (unsigned c);
     stringifyView := fun c => plain (unsigned c);
     areObjectsEqual := fun a b =>
       match b with
       | Some b' => deep_equal a b'
       | None => false
       end;
     uuid := "6f1c2c3a-58a1-4d4e-9d6b-0a1b2c3d4e5f" |}.

Definition sampleDidDocument : DidDocument :=
  {| did := "did:example:123";
     verificationMethods :=
       [ {| vm_id := "did:example:123#key-bbs"; vm_type := "Bls12381G2Key2020" |};
         {| vm_id := "did:example:123#key-1";
            vm_type := "Ed25519VerificationKey2018" |};
         {| vm_id := "did:example:123#key-2";
            vm_type := "Ed25519VerificationKey2018" |} ] |}.

Definition sampleResolver : DidResolverService :=
  {| resolveDidDocument := fun did =>
       if String.eqb did "did:example:123" then Returns sampleDidDocument
       else Throws (CollaboratorError "Unable to resolve did document: notFound") |}.

(** The key types of a proof type; the entry for [BbsBlsSignature2020] is
    the one the BBS module registers. *)
Definition sampleKeyTypes (proofType : value) : option (list string) :=
  match proofType with
  | Some (JStr t) =>
      if String.eqb t "Ed25519Signature2018" then
        Some ["Ed25519VerificationKey2018"; "Ed25519VerificationKey2020"]
      else if String.eqb t "BbsBlsSignature2020" then Some ["Bls12381G2Key2020"]
      else if String.eqb t "BbsBlsSignatureProof2020" then
        Some ["Bls12381G2Key2020"]
      else if String.eqb t "EcdsaSecp256k1Signature2019" then
        Some ["EcdsaSecp256k1VerificationKey2019"]
      else Some []
  | _ => None
  end.

Definition sampleSignedJson (c : W3cCredential) (proofType : value)
    (verificationMethod : string) : json :=
  let proofJson :=
    JObj ((match proofType with Some t => [("type", t)] | None => [] end)
            ++ [("proofPurpose", JStr "assertionMethod");
                ("created", JStr "2022-04-18T23:13:10Z");
                ("verificationMethod", JStr verificationMethod)]) in
  match plain c with
  | JObj m => JObj (m ++ [("proof", proofJson)])
  | other => other
  end.

Definition sampleW3cCredentialService : W3cCredentialService :=
  {| getVerificationMethodTypesByProofType := fun t => Returns (sampleKeyTypes t);
     signCredential := fun c t vm =>
       Returns {| unsigned := {| issuer := issuer c;
                                 plain := sampleSignedJson c t vm |};
                  proof := Single
                    {| proof_type := t;
                       proof_proofPurpose := Some (JStr "assertionMethod");
                       proof_created := Some (JStr "2022-04-18T23:13:10Z");
                       proof_domain := None;
                       proof_challenge := None |} |};
     verifyCredential := fun _ =>
       Returns (Some {| verified := true; error := None |});
     storeCredential := fun _ => Returns {| record_id := "w3c-record-1" |} |}.

Definition sampleAgentContext : AgentContext :=
  {| didResolverService := sampleResolver;
     w3cCredentialService := sampleW3cCredentialService |}.

(** The same services, with a verifier that answers [null]. *)
Definition silentVerifierContext : AgentContext :=
  {| didResolverService := sampleResolver;
     w3cCredentialService :=
       {| getVerificationMethodTypesByProofType :=
            getVerificationMethodTypesByProofType sampleW3cCredentialService;
          signCredential := signCredential sampleW3cCredentialService;
          verifyCredential := fun _ => Returns None;
          storeCredential := storeCredential sampleW3cCredentialService |} |}.

Definition emptyWorld : World := {| credentials := []; calls := [] |}.

(** A credential detail: the claims of an issuer, and the proof options. *)
Definition sampleClaims (issuerDid : string) : list (string * json) :=
  [ ("@context", JArr [JStr "https://www.w3.org/2018/credentials/v1"]);
    ("type", JArr [JStr "VerifiableCredential"]);
    ("issuer", JStr issuerDid);
    ("issuanceDate", JStr "2017-10-22T12:23:48Z");
    ("credentialSubject", JObj [("name", JStr "Alice")]) ].

Definition sampleRequest (issuerDid : string) (options : list (string * json))
  : json :=
  JObj [ ("credential", JObj (sampleClaims issuerDid));
         ("options", JObj options) ].

Definition sampleOptions : list (string * json) :=
  [ ("proofType", JStr "Ed25519Signature2018");
    ("proofPurpose", JStr "assertionMethod") ].

Definition sampleDetail : json := sampleRequest "did:example:123" sampleOptions.

Definition sampleProofOf (created : string) : LinkedDataProof :=
  {| proof_type := Some (JStr "Ed25519Signature2018");
     proof_proofPurpose := Some (JStr "assertionMethod");
     proof_created := Some (JStr created);
     proof_domain := None;
     proof_challenge := None |}.

Definition sampleUnsigned : W3cCredential :=
  {| issuer := IssuerString "did:example:123";
     plain := JObj (sampleClaims "did:example:123") |}.

(** The credential an issuer returns for [sampleDetail], as JSON. *)
Definition sampleCredentialJson : json :=
  JObj (sampleClaims "did:example:123"
          ++ [("proof",
               JObj [ ("type", JStr "Ed25519Signature2018");
                      ("proofPurpose", JStr "assertionMethod");
                      ("created", JStr "2022-04-18T23:13:10Z");
                      ("verificationMethod", JStr "did:example:123#key-1") ])]).

Definition sampleCredential (p : SingleOrArray LinkedDataProof)
  : W3cVerifiableCredential :=
  {| unsigned := {| issuer := IssuerString "did:example:123";
                    plain := sampleCredentialJson |};
     proof := p |}.

(** The value step of the round trip, with the text that follows. *)
Definition parses_back (j : json) : Prop :=
  forall fuel rest,
    size j <= fuel -> terminated rest = true ->
    parse_value fuel (JSON_stringify j ++ rest) = Some (j, rest).

(** ** The ways a credential can be received *)

(** [c] is the credential of [attachment], and the matcher accepts it
    against the request of [requestAttachment]. *)
Definition acceptedByMatcher (u : Utils)
    (attachment requestAttachment : V1Attachment)
    (c : W3cVerifiableCredential) : Prop :=
  exists credentialAsJson requestAsJson,
    getDataAsJson attachment = Returns credentialAsJson
    /\ fromJSON_W3cVerifiableCredential u (Some credentialAsJson) = Returns c
    /\ getDataAsJson requestAttachment = Returns requestAsJson
    /\ verifyReceivedCredentialMatchesRequest u c requestAsJson = Returns tt.

(** The answer of the verification service does not report a failure. *)
Definition notRefuted (verdict : option W3cVerifyCredentialResult) : Prop :=
  forall v, verdict = Some v -> verified v = true.

(** Every way [processCredential] can end when started in the world [w]:
    the result, and the world it leaves. *)
Inductive Receipt (agentContext : AgentContext) (u : Utils)
    (attachment requestAttachment : V1Attachment) (w : World)
  : Result unit -> World -> Prop :=
| RejectedBeforeAnyCall (e : Error) :
    Receipt agentContext u attachment requestAttachment w (Throws e) w
| VerifierThrew (c : W3cVerifiableCredential) (e : Error) :
    acceptedByMatcher u attachment requestAttachment c ->
    verifyCredential (w3cCredentialService agentContext) c = Throws e ->
    Receipt agentContext u attachment requestAttachment w
      (Throws e) (withCalls w [VerifyCredential c])
| VerificationFailed (c : W3cVerifiableCredential)
    (v : W3cVerifyCredentialResult) :
    acceptedByMatcher u attachment requestAttachment c ->
    verifyCredential (w3cCredentialService agentContext) c
    = Returns (Some v) ->
    verified v = false ->
    Receipt agentContext u attachment requestAttachment w
      (Throws (VerificationFailedError (error v)))
      (withCalls w [VerifyCredential c])
| StoreThrew (c : W3cVerifiableCredential)
    (verdict : option W3cVerifyCredentialResult) (e : Error) :
    acceptedByMatcher u attachment requestAttachment c ->
    verifyCredential (w3cCredentialService agentContext) c = Returns verdict ->
    notRefuted verdict ->
    storeCredential (w3cCredentialService agentContext) c = Throws e ->
    Receipt agentContext u attachment requestAttachment w
      (Throws e) (withCalls w [VerifyCredential c; StoreCredential c])
| Stored (c : W3cVerifiableCredential)
    (verdict : option W3cVerifyCredentialResult)
    (record : W3cCredentialRecord) :
    acceptedByMatcher u attachment requestAttachment c ->
    verifyCredential (w3cCredentialService agentContext) c = Returns verdict ->
    notRefuted verdict ->
    storeCredential (w3cCredentialService agentContext) c = Returns record ->
    Receipt agentContext u attachment requestAttachment w
      (Returns tt)
      (withBinding
         (withCalls w [VerifyCredential c; StoreCredential c])
         {| binding_credentialRecordType := "w3c";
            binding_credentialRecordId := record_id record |}).

(** Unfolding of the effect combinators. *)
Ltac run :=
  unfold bind, lift, call, ret, throw, push, bindR in *; cbn beta iota in *.

(** ** The other operations of the service *)

(** [v?.k]: [undefined] when [v] is [undefined] or [null], else the
    property. *)
Definition getOptional (v : value) (k : string) : value :=
  match v with
  | Some (JObj members) => lookup k members
  | _ => undefined
  end.

(** [createProposal]: the [jsonld] member of [credentialFormats] is read
    without a guard, its [credential] member is what is validated, and the
    whole payload is what is encoded. The descriptor gets a minted id. *)
Definition createProposal (u : Utils) (credentialFormats : value)
  : Result (CredentialFormatSpec * V1Attachment) :=
  (let format := newCredentialFormatSpec u None JSONLD_VC_DETAIL in
   let? jsonLdFormat := get credentialFormats "jsonld" in
   match jsonLdFormat with
   | Some payload =>
       if negb (truthy (Some payload)) then
         Throws (AriesFrameworkError "Missing jsonld payload in createProposal")
       else
         let? credential := get (Some payload) "credential" in
         let? _ := fromJSON_JsonLdCredentialDetail u credential in
         let attachment := getFormatData payload (spec_attachId format) in
         Returns (format, attachment)
   | None =>
       Throws (AriesFrameworkError "Missing jsonld payload in createProposal")
   end)%result.

Definition processProposal (u : Utils) (attachment : V1Attachment)
  : Result unit :=
  (let? credProposalJson := getDataAsJson attachment in
   if negb (truthy (Some credProposalJson)) then
     Throws (AriesFrameworkError
               "Missing jsonld credential proposal data payload")
   else
     let? _ := fromJSON_JsonLdCredentialDetail u (Some credProposalJson) in
     Returns tt)%result.

Definition createOffer (u : Utils) (credentialFormats : value)
    (attachId : option string)
  : Result (CredentialFormatSpec * V1Attachment) :=
  (let format := newCredentialFormatSpec u attachId JSONLD_VC_DETAIL in
   let jsonLdFormat := getOptional credentialFormats "jsonld" in
   match jsonLdFormat with
   | Some payload =>
       if negb (truthy (Some payload)) then
         Throws (AriesFrameworkError "Missing jsonld payload in createOffer")
       else
         let? credential := get (Some payload) "credential" in
         let? _ := fromJSON_JsonLdCredentialDetail u credential in
         let attachment := getFormatData payload (spec_attachId format) in
         Returns (format, attachment)
   | None =>
       Throws (AriesFrameworkError "Missing jsonld payload in createOffer")
   end)%result.

Definition processOffer (u : Utils) (attachment : V1Attachment)
  : Result unit :=
  (let? credentialOfferJson := getDataAsJson attachment in
   if negb (truthy (Some credentialOfferJson)) then
     Throws (AriesFrameworkError "Missing jsonld credential offer data payload")
   else
     let? _ := fromJSON_JsonLdCredentialDetail u (Some credentialOfferJson) in
     Returns tt)%result.

Definition createRequest (u : Utils) (credentialFormats : value)
  : Result (CredentialFormatSpec * V1Attachment) :=
  (let jsonLdFormat := getOptional credentialFormats "jsonld" in
   let format := newCredentialFormatSpec u None JSONLD_VC_DETAIL in
   match jsonLdFormat with
   | Some payload =>
       if negb (truthy (Some payload)) then
         Throws (AriesFrameworkError "Missing jsonld payload in createRequest")
       else
         let? credential := get (Some payload) "credential" in
         let? _ := fromJSON_JsonLdCredentialDetail u credential in
         let attachment := getFormatData payload (spec_attachId format) in
         Returns (format, attachment)
   | None =>
       Throws (AriesFrameworkError "Missing jsonld payload in createRequest")
   end)%result.

Definition processRequest (u : Utils) (attachment : V1Attachment)
  : Result unit :=
  (let? requestJson := getDataAsJson attachment in
   if negb (truthy (Some requestJson)) then
     Throws (AriesFrameworkError
               "Missing jsonld credential request data payload")
   else
     let? _ := fromJSON_JsonLdCredentialDetail u (Some requestJson) in
     Returns tt)%result.

Definition areCredentialsEqual (u : Utils) (message1 message2 : V1Attachment)
  : Result bool :=
  (let? obj1 := getDataAsJson message1 in
   let? obj2 := getDataAsJson message2 in
   Returns (areObjectsEqual u obj1 (Some obj2)))%result.

Definition shouldAutoRespondToProposal (u : Utils)
    (offerAttachment proposalAttachment : V1Attachment) : Result bool :=
  areCredentialsEqual u proposalAttachment offerAttachment.

Definition shouldAutoRespondToOffer (u : Utils)
    (offerAttachment proposalAttachment : V1Attachment) : Result bool :=
  areCredentialsEqual u proposalAttachment offerAttachment.

Definition shouldAutoRespondToRequest (u : Utils)
    (offerAttachment requestAttachment : V1Attachment) : Result bool :=
  areCredentialsEqual u offerAttachment requestAttachment.

(** The [credential] member of a payload, as [payload.credential] reads
    it. *)
Definition credentialOf (payload : json) : value :=
  match payload with
  | JObj members => lookup "credential" members
  | _ => undefined
  end.

(** The calls a derivation can have made, and the calls the signing step
    can have made. *)
Definition derivationCalls (made : list Call) : Prop :=
  made = []
  \/ (exists d, made = [ResolveDidDocument d])
  \/ (exists d t, made = [ResolveDidDocument d;
                          GetVerificationMethodTypesByProofType t]).

Definition signingCalls (made : list Call) : Prop :=
  made = [] \/ exists c t m, made = [SignCredential c t m].

(** A payload whose [credential] member is itself a detail: the shape that
    both the create and the process operations validate with the sample
    transformer. *)
Definition nestedDetail : json :=
  JObj [("credential", sampleDetail); ("options", JObj sampleOptions)].

(** A value whose properties can be read: anything but [undefined] and
    [null]. *)
Definition readable (v : value) : bool :=
  match v with
  | None | Some JNull => false
  | Some _ => true
  end.

Definition DomainMismatchError : Error :=
  AriesFrameworkError
    "Received credential proof domain does not match domain from credential request".

(* ================================================================== *)
(** * Part II. Lemmas and theorems                                     *)
(* ================================================================== *)

(** ** Strings *)

Lemma append_empty_r (s : string) : s ++ EmptyString = s.
Proof. induction s as [|c s IH]; simpl; [reflexivity | now rewrite IH]. Qed.

Lemma append_assoc (s t r : string) : (s ++ t) ++ r = s ++ (t ++ r).
Proof. induction s as [|c s IH]; simpl; [reflexivity | now rewrite IH]. Qed.

Lemma length_append (s t : string) :
  String.length (s ++ t) = String.length s + String.length t.
Proof. induction s as [|c s IH]; simpl; [reflexivity | now rewrite IH]. Qed.

(** ** Base64 round trip *)

Lemma decode_encode_sextet (x : sextet) :
  decode_sextet (encode_sextet x) = Some x.
Proof.
  destruct x as [[[[[b5 b4] b3] b2] b1] b0].
  destruct b5, b4, b3, b2, b1, b0; reflexivity.
Qed.

Lemma encode_sextet_not_pad (x : sextet) : is_pad (encode_sextet x) = false.
Proof.
  destruct x as [[[[[b5 b4] b3] b2] b1] b0].
  destruct b5, b4, b3, b2, b1, b0; reflexivity.
Qed.

Lemma bytes_of_sextets_of_bytes (a b c : ascii) :
  let '(w, x, y, z) := sextets_of_bytes a b c in
  bytes_of_sextets w x y z = (a, b, c).
Proof. destruct a, b, c; reflexivity. Qed.

Lemma base64_group (a b c : ascii) (tail : string) :
  base64_encode (String a (String b (String c tail))) =
  let '(w, x, y, z) := sextets_of_bytes a b c in
  String (encode_sextet w)
    (String (encode_sextet x)
       (String (encode_sextet y)
          (String (encode_sextet z) (base64_encode tail)))).
Proof. reflexivity. Qed.

Lemma base64_encode_nonempty (a : ascii) (s : string) :
  exists c r, base64_encode (String a s) = String c r.
Proof.
  destruct s as [|b [|c s]]; cbn -[encode_sextet sextets_of_bytes].
  - destruct (sextets_of_bytes a zero zero) as [[[w x] y] z]; eauto.
  - destruct (sextets_of_bytes a b zero) as [[[w x] y] z]; eauto.
  - destruct (sextets_of_bytes a b c) as [[[w x] y] z]; eauto.
Qed.

Lemma base64_decode_one (a : ascii) :
  base64_decode (base64_encode (String a EmptyString))
  = Some (String a EmptyString).
Proof.
  destruct a as [a0 a1 a2 a3 a4 a5 a6 a7].
  cbn -[decode_sextet encode_sextet].
  rewrite !decode_encode_sextet. reflexivity.
Qed.

Lemma base64_decode_two (a b : ascii) :
  base64_decode (base64_encode (String a (String b EmptyString)))
  = Some (String a (String b EmptyString)).
Proof.
  destruct a as [a0 a1 a2 a3 a4 a5 a6 a7], b as [b0 b1 b2 b3 b4 b5 b6 b7].
  cbn -[decode_sextet encode_sextet is_pad].
  rewrite !decode_encode_sextet, encode_sextet_not_pad. reflexivity.
Qed.

Lemma base64_decode_encode_bounded (n : nat) :
  forall s, String.length s <= n -> base64_decode (base64_encode s) = Some s.
Proof.
  induction n as [|n IH]; intros s Hlen.
  - destruct s; [reflexivity | simpl in Hlen; lia].
  - destruct s as [|a [|b [|c tail]]].
    + reflexivity.
    + apply base64_decode_one.
    + apply base64_decode_two.
    + rewrite base64_group.
      pose proof (bytes_of_sextets_of_bytes a b c) as Hbytes.
      destruct (sextets_of_bytes a b c) as [[[w x] y] z].
      assert (Htail : base64_decode (base64_encode tail) = Some tail).
      { apply IH. simpl in Hlen. lia. }
      cbn -[decode_sextet encode_sextet is_pad base64_encode bytes_of_sextets].
      rewrite !decode_encode_sextet.
      destruct tail as [|a' tail'].
      * cbn -[decode_sextet encode_sextet is_pad bytes_of_sextets].
        rewrite encode_sextet_not_pad, ?decode_encode_sextet, Hbytes.
        reflexivity.
      * destruct (base64_encode_nonempty a' tail') as (c1 & r1 & Henc).
        rewrite Henc in *.
        rewrite ?decode_encode_sextet, Htail, Hbytes. reflexivity.
Qed.

Lemma base64_decode_encode (s : string) :
  base64_decode (base64_encode s) = Some s.
Proof. apply (base64_decode_encode_bounded (String.length s)). lia. Qed.

(** ** JSON round trip *)

Lemma parse_chars_escape (c : ascii) (s : string) :
  parse_chars (escape c ++ s) = prepend (String c EmptyString) (parse_chars s).
Proof.
  destruct c as [[] [] [] [] [] [] [] []]; reflexivity.
Qed.

Lemma parse_chars_quote (s rest : string) :
  parse_chars (escape_all s ++ String dquote rest) = Some (s, rest).
Proof.
  induction s as [|c s IH]; simpl.
  - reflexivity.
  - rewrite append_assoc, parse_chars_escape, IH. reflexivity.
Qed.

Lemma quote_append (s rest : string) :
  quote s ++ rest = String dquote (escape_all s ++ String dquote rest).
Proof. unfold quote. simpl. now rewrite append_assoc. Qed.

Lemma terminated_no_digit (rest : string) :
  terminated rest = true -> starts_digit rest = false.
Proof.
  destruct rest as [|c r]; [reflexivity|].
  destruct c as [[] [] [] [] [] [] [] []]; simpl; intros H;
    try reflexivity; discriminate H.
Qed.

Lemma terminated_no_fraction (rest : string) :
  terminated rest = true -> starts_fraction rest = false.
Proof.
  destruct rest as [|c r]; [reflexivity|].
  destruct c as [[] [] [] [] [] [] [] []]; simpl; intros H;
    try reflexivity; discriminate H.
Qed.

Lemma span_digits_uint (d : Decimal.uint) (rest : string) :
  starts_digit rest = false ->
  span_digits (NilEmpty.string_of_uint d ++ rest)
  = (NilEmpty.string_of_uint d, rest).
Proof.
  intros Hrest.
  induction d as [|d IH|d IH|d IH|d IH|d IH|d IH|d IH|d IH|d IH|d IH];
    try (cbn -[span_digits]; cbn [span_digits]; 
         change (is_digit _) with true; cbv iota; now rewrite IH).
  simpl. destruct rest as [|c r]; [reflexivity|].
  simpl in Hrest. simpl. now rewrite Hrest.
Qed.

Lemma nzhead_not_zero (d : Decimal.uint) :
  match Decimal.nzhead d with
  | Decimal.D0 _ => False
  | _ => True
  end.
Proof. induction d; simpl; auto. Qed.

(** The digits of a number start with a zero only when the number is 0. *)
Lemma to_uint_leading (n : N) :
  match N.to_uint n with
  | Decimal.Nil => False
  | Decimal.D0 d => d = Decimal.Nil
  | _ => True
  end.
Proof.
  pose proof (DecimalN.Unsigned.to_of (N.to_uint n)) as H.
  rewrite DecimalN.Unsigned.of_to in H.
  unfold Decimal.unorm in H.
  pose proof (nzhead_not_zero (N.to_uint n)) as Hnz.
  destruct (Decimal.nzhead (N.to_uint n)) eqn:E;
    rewrite H; try exact I; try reflexivity; contradiction.
Qed.

Lemma digits_head (n : N) :
  exists c s, digits n = String c s /\ is_digit c = true
              /\ (Ascii.eqb c "0" = true -> s = EmptyString).
Proof.
  unfold digits. pose proof (to_uint_leading n) as H.
  destruct (N.to_uint n) as [|d|d|d|d|d|d|d|d|d|d]; try contradiction;
    simpl; eexists; eexists; (split; [reflexivity|]); split;
    try reflexivity; try discriminate.
  intros _. now subst d.
Qed.

Lemma parse_natural_digits (n : N) (rest : string) :
  terminated rest = true ->
  parse_natural (digits n ++ rest) = Some (n, rest).
Proof.
  intros Hrest. unfold parse_natural.
  unfold digits at 1.
  rewrite span_digits_uint by now apply terminated_no_digit.
  fold (digits n).
  destruct (digits_head n) as (c & s & Hd & _ & Hzero).
  rewrite Hd.
  assert (Hlead : Ascii.eqb c "0" && negb (String.eqb s EmptyString) = false).
  { destruct (Ascii.eqb c "0") eqn:E; [|reflexivity].
    rewrite (Hzero eq_refl). reflexivity. }
  rewrite Hlead, (terminated_no_fraction _ Hrest), <- Hd.
  unfold digits. rewrite NilEmpty.usu, DecimalN.Unsigned.of_to. reflexivity.
Qed.

Lemma is_digit_not_minus (c : ascii) :
  is_digit c = true -> Ascii.eqb c "-" = false.
Proof.
  destruct c as [[] [] [] [] [] [] [] []]; simpl; intros H;
    try reflexivity; discriminate H.
Qed.

Lemma is_digit_not_ws (c : ascii) : is_digit c = true -> is_ws c = false.
Proof.
  destruct c as [[] [] [] [] [] [] [] []]; simpl; intros H;
    try reflexivity; discriminate H.
Qed.

Lemma parse_number_Z (z : Z) (rest : string) :
  terminated rest = true ->
  parse_number (string_of_Z z ++ rest) = Some (JNum z, rest).
Proof.
  intros Hrest. destruct z as [|p|p].
  - change (string_of_Z 0) with (digits 0).
    destruct (digits_head 0) as (c & s & Hd & Hc & _).
    unfold parse_number. rewrite Hd. cbn [append].
    rewrite (is_digit_not_minus _ Hc).
    change (String c (s ++ rest)) with (String c s ++ rest).
    rewrite <- Hd, parse_natural_digits by assumption. reflexivity.
  - cbn [string_of_Z].
    destruct (digits_head (Npos p)) as (c & s & Hd & Hc & _).
    unfold parse_number. rewrite Hd. cbn [append].
    rewrite (is_digit_not_minus _ Hc).
    change (String c (s ++ rest)) with (String c s ++ rest).
    rewrite <- Hd, parse_natural_digits by assumption. reflexivity.
  - cbn [string_of_Z append parse_number].
    change (Ascii.eqb "-" "-") with true. cbv iota.
    rewrite parse_natural_digits by assumption. reflexivity.
Qed.

(** The first character of a number: a digit or a minus sign. *)
Lemma string_of_Z_head (z : Z) :
  exists c s, string_of_Z z = String c s
              /\ starts_number c = true /\ is_ws c = false.
Proof.
  destruct z as [|p|p].
  - exists "0"%char, EmptyString. repeat split.
  - destruct (digits_head (Npos p)) as (c & s & Hd & Hc & _).
    exists c, s. cbn [string_of_Z]. split; [assumption|].
    unfold starts_number. rewrite Hc. split; [reflexivity|].
    now apply is_digit_not_ws.
  - eexists; eexists. cbn [string_of_Z]. repeat split.
Qed.

Lemma parse_value_number (fuel : nat) (c : ascii) (s : string) :
  starts_number c = true -> is_ws c = false ->
  parse_value (S fuel) (String c s) = parse_number (String c s).
Proof.
  intros Hnum Hws. cbn [parse_value skip_ws]. now rewrite Hws, Hnum.
Qed.

Lemma parse_value_string (fuel : nat) (s : string) :
  parse_value (S fuel) (String dquote s) =
  match parse_chars s with
  | Some (str, rest) => Some (JStr str, rest)
  | None => None
  end.
Proof. reflexivity. Qed.

Lemma parse_value_array (fuel : nat) (d : ascii) (r : string) :
  is_ws d = false -> Ascii.eqb d "]" = false ->
  parse_value (S fuel) (String "[" (String d r)) =
  match parse_elements fuel (String d r) with
  | Some (l, rest) => Some (JArr l, rest)
  | None => None
  end.
Proof.
  intros Hws Hclose.
  cbn [parse_value skip_ws].
  change (is_ws "[") with false. cbv iota.
  change (starts_number "[") with false. cbv iota.
  change (Ascii.eqb "[" "n") with false.
  change (Ascii.eqb "[" "t") with false.
  change (Ascii.eqb "[" "f") with false.
  change (Ascii.eqb "[" dquote) with false.
  change (Ascii.eqb "[" "[") with true. cbv iota.
  cbn [skip_ws]. now rewrite Hws, Hclose.
Qed.

Lemma parse_value_object (fuel : nat) (r : string) :
  parse_value (S fuel) (String "{" (String dquote r)) =
  match parse_members fuel (String dquote r) with
  | Some (m, rest) => Some (JObj m, rest)
  | None => None
  end.
Proof. reflexivity. Qed.

Lemma parse_elements_step (fuel : nat) (s : string) :
  parse_elements (S fuel) s =
  match parse_value fuel s with
  | Some (v, r) =>
      match skip_ws r with
      | EmptyString => None
      | String c r' =>
          if Ascii.eqb c "," then
            match parse_elements fuel r' with
            | Some (l, rest) => Some (v :: l, rest)
            | None => None
            end
          else if Ascii.eqb c "]" then Some ([v], r')
          else None
      end
  | None => None
  end.
Proof. reflexivity. Qed.

Lemma parse_members_step (fuel : nat) (k r : string) :
  parse_members (S fuel) (quote k ++ String ":" r) =
  match parse_value fuel r with
  | Some (v, r3) =>
      match skip_ws r3 with
      | EmptyString => None
      | String c r4 =>
          if Ascii.eqb c "," then
            match parse_members fuel r4 with
            | Some (m, rest) => Some ((k, v) :: m, rest)
            | None => None
            end
          else if Ascii.eqb c "}" then Some ([(k, v)], r4)
          else None
      end
  | None => None
  end.
Proof.
  rewrite quote_append.
  cbn [parse_members skip_ws].
  change (is_ws dquote) with false. cbv iota.
  change (Ascii.eqb dquote dquote) with true. cbv iota.
  rewrite parse_chars_quote.
  cbn [skip_ws]. change (is_ws ":") with false. cbv iota.
  change (Ascii.eqb ":" ":") with true. cbv iota.
  reflexivity.
Qed.

(** The first character of the text of a payload is neither white space
    nor a closing bracket. *)
Lemma JSON_stringify_head (j : json) :
  exists c s, JSON_stringify j = String c s
              /\ is_ws c = false
              /\ Ascii.eqb c "]" = false.
Proof.
  destruct j as [|[]|z|s|l|m]; try (eexists; eexists; repeat split; fail).
  destruct (string_of_Z_head z) as (c & s & Hz & Hnum & Hws).
  exists c, s. cbn [JSON_stringify]. split; [assumption|]. split; [assumption|].
  unfold starts_number in Hnum.
  destruct c as [[] [] [] [] [] [] [] []]; try reflexivity; discriminate Hnum.
Qed.

Lemma list_sum_cons (a : nat) (l : list nat) :
  list_sum (a :: l) = a + list_sum l.
Proof. reflexivity. Qed.

Lemma parse_elements_text (l : list json) :
  Forall parses_back l -> l <> [] ->
  forall fuel rest,
    list_sum (map (fun v => S (size v)) l) <= fuel ->
    parse_elements fuel (elements_text l ++ String "]" rest) = Some (l, rest).
Proof.
  induction 1 as [|v l Hv Hl IH]; [congruence|].
  intros _ fuel rest Hfuel. cbn [map] in Hfuel.
  rewrite list_sum_cons in Hfuel.
  destruct fuel as [|fuel]; [lia|].
  rewrite parse_elements_step.
  destruct l as [|v' l'].
  - unfold elements_text. cbn [map String.concat].
    rewrite Hv by (cbn in Hfuel; try reflexivity; lia).
    reflexivity.
  - assert (Htext : elements_text (v :: v' :: l') ++ String "]" rest
                    = JSON_stringify v
                        ++ String "," (elements_text (v' :: l')
                                         ++ String "]" rest)).
    { unfold elements_text. cbn [map String.concat].
      now rewrite append_assoc. }
    rewrite Htext, Hv by (try reflexivity; lia).
    cbn [skip_ws]. change (is_ws ",") with false. cbv iota.
    change (Ascii.eqb "," ",") with true. cbv iota.
    rewrite IH by (try congruence; lia).
    reflexivity.
Qed.

Lemma parse_members_text (m : list (string * json)) :
  Forall (fun kv => parses_back (snd kv)) m -> m <> [] ->
  forall fuel rest,
    list_sum (map (fun kv => S (size (snd kv))) m) <= fuel ->
    parse_members fuel (members_text m ++ String "}" rest) = Some (m, rest).
Proof.
  induction 1 as [|[k v] m Hv Hm IH]; [congruence|].
  intros _ fuel rest Hfuel. cbn [map snd] in Hfuel.
  rewrite list_sum_cons in Hfuel.
  cbn [snd] in Hv.
  destruct fuel as [|fuel]; [lia|].
  destruct m as [|kv' m'].
  - assert (Htext : members_text [(k, v)] ++ String "}" rest
                    = quote k ++ String ":" (JSON_stringify v
                                               ++ String "}" rest)).
    { unfold members_text, member_text. cbn [map String.concat fst snd].
      rewrite !append_assoc. reflexivity. }
    rewrite Htext, parse_members_step.
    rewrite Hv by (cbn in Hfuel; try reflexivity; lia).
    reflexivity.
  - assert (Htext : members_text ((k, v) :: kv' :: m') ++ String "}" rest
                    = quote k ++ String ":" (JSON_stringify v
                        ++ String "," (members_text (kv' :: m')
                                         ++ String "}" rest))).
    { unfold members_text, member_text. cbn [map String.concat fst snd].
      rewrite !append_assoc. reflexivity. }
    rewrite Htext, parse_members_step.
    rewrite Hv by (try reflexivity; lia).
    cbn [skip_ws]. change (is_ws ",") with false. cbv iota.
    change (Ascii.eqb "," ",") with true. cbv iota.
    rewrite IH by (try congruence; lia).
    reflexivity.
Qed.

Lemma parse_value_stringify (j : json) : parses_back j.
Proof.
  induction j as [|b|z|s|l IH|m IH] using json_ind;
    intros fuel rest Hfuel Hrest;
    (destruct fuel as [|fuel]; [cbn in Hfuel; lia|]).
  - reflexivity.
  - destruct b; reflexivity.
  - cbn [JSON_stringify].
    destruct (string_of_Z_head z) as (c & s & Hz & Hnum & Hws).
    pose proof (parse_number_Z z rest Hrest) as Hparse.
    rewrite Hz in *. cbn [append] in *.
    now rewrite parse_value_number.
  - cbn [JSON_stringify]. rewrite quote_append, parse_value_string.
    now rewrite parse_chars_quote.
  - destruct l as [|v l'].
    + reflexivity.
    + assert (Htext : JSON_stringify (JArr (v :: l')) ++ rest
                      = String "[" (elements_text (v :: l')
                                      ++ String "]" rest)).
      { cbn [JSON_stringify]. fold (elements_text (v :: l')).
        cbn [append]. now rewrite append_assoc. }
      rewrite Htext.
      pose proof (parse_elements_text (v :: l') IH ltac:(congruence)
                    fuel rest) as Helems.
      cbn [size] in Hfuel.
      specialize (Helems ltac:(lia)).
      destruct (JSON_stringify_head v) as (c & s & Hv & Hws & Hclose).
      assert (Hhead : exists r, elements_text (v :: l')
                                  ++ String "]" rest = String c r).
      { unfold elements_text. cbn [map String.concat]. rewrite Hv.
        destruct (map JSON_stringify l'); cbn [append]; eauto. }
      destruct Hhead as (r & Hhead). rewrite Hhead in *.
      rewrite parse_value_array by assumption.
      now rewrite Helems.
  - destruct m as [|[k v] m'].
    + reflexivity.
    + assert (Htext : JSON_stringify (JObj ((k, v) :: m')) ++ rest
                      = String "{" (members_text ((k, v) :: m')
                                      ++ String "}" rest)).
      { cbn [JSON_stringify]. fold member_text.
        fold (members_text ((k, v) :: m')).
        cbn [append]. now rewrite append_assoc. }
      rewrite Htext.
      pose proof (parse_members_text ((k, v) :: m') IH ltac:(congruence)
                    fuel rest) as Hmembers.
      cbn [size] in Hfuel.
      specialize (Hmembers ltac:(lia)).
      assert (Hhead : exists r, members_text ((k, v) :: m')
                                  ++ String "}" rest = String dquote r).
      { unfold members_text, member_text. cbn [map String.concat fst].
        unfold quote.
        destruct (map _ m'); cbn [append]; eauto. }
      destruct Hhead as (r & Hhead). rewrite Hhead in *.
      rewrite parse_value_object.
      now rewrite Hmembers.
Qed.

Lemma concat_length_bound {A : Type} (text : A -> string) (measure : A -> nat)
    (l : list A) :
  Forall (fun a => measure a <= String.length (text a)) l ->
  list_sum (map (fun a => S (measure a)) l)
  <= String.length (String.concat "," (map text l)) + 1.
Proof.
  induction 1 as [|a l Ha Hl IH]; [cbn; lia|].
  cbn [map]. rewrite list_sum_cons.
  destruct l as [|a' l'].
  - cbn. lia.
  - cbn [map String.concat] in *.
    rewrite !length_append. cbn [String.length]. lia.
Qed.

Lemma size_le_length (j : json) : size j <= String.length (JSON_stringify j).
Proof.
  induction j as [|b|z|s|l IH|m IH] using json_ind.
  - cbn. lia.
  - destruct b; cbn; lia.
  - cbn [size JSON_stringify].
    destruct (string_of_Z_head z) as (c & s & Hz & _). rewrite Hz. cbn. lia.
  - cbn. lia.
  - cbn [size JSON_stringify].
    pose proof (concat_length_bound JSON_stringify size l IH) as Hbound.
    rewrite !length_append. cbn [String.length]. lia.
  - cbn [size JSON_stringify].
    assert (Hm : Forall (fun kv => size (snd kv)
                                   <= String.length (member_text kv)) m).
    { eapply Forall_impl; [|exact IH]. intros kv Hkv. cbn beta in Hkv.
      unfold member_text. rewrite !length_append. lia. }
    pose proof (concat_length_bound member_text (fun kv => size (snd kv)) m Hm)
      as Hbound.
    fold member_text.
    rewrite !length_append. cbn [String.length]. lia.
Qed.

(** Parsing the text of a payload gives the payload back. *)
Lemma JSON_parse_stringify (j : json) : JSON_parse (JSON_stringify j) = Some j.
Proof.
  unfold JSON_parse.
  pose proof (parse_value_stringify j (String.length (JSON_stringify j))
                EmptyString (size_le_length j) eq_refl) as H.
  rewrite append_empty_r in H. rewrite H. reflexivity.
Qed.

Lemma fromBase64_toBase64 (j : json) :
  match base64_decode (toBase64 j) with
  | Some text => JSON_parse text
  | None => None
  end = Some j.
Proof.
  unfold toBase64. rewrite base64_decode_encode. apply JSON_parse_stringify.
Qed.

Lemma getDataAsJson_getFormatData (payload : json) (id : string) :
  getDataAsJson (getFormatData payload id) = Returns payload.
Proof.
  unfold getDataAsJson, getFormatData. cbn [data base64].
  pose proof (fromBase64_toBase64 payload) as H.
  destruct (base64_decode (toBase64 payload)) as [text|]; [|discriminate H].
  now rewrite H.
Qed.

(** ** The format adapter *)

(** C9. [supportsFormat] answers [true] for exactly the two format
    identifiers of the adapter, the unsigned-detail one and the
    signed-credential one, and [false] for every other string. It is a
    function from strings to booleans: it reads and changes nothing else. *)
Theorem supportsFormat_exactly_two (s : string) :
  (supportsFormat s = true <->
     s = "aries/ld-proof-vc-detail@v1.0" \/ s = "aries/ld-proof-vc@1.0")
  /\ (supportsFormat s = false <->
        s <> "aries/ld-proof-vc-detail@v1.0" /\ s <> "aries/ld-proof-vc@1.0").
Proof.
  unfold supportsFormat, JSONLD_VC_DETAIL, JSONLD_VC. cbn [existsb].
  destruct (String.eqb_spec s "aries/ld-proof-vc-detail@v1.0") as [E1|N1];
    destruct (String.eqb_spec s "aries/ld-proof-vc@1.0") as [E2|N2];
    cbn; split; split; intros H; try tauto; try discriminate H;
    try (destruct H as [H1 H2]; congruence);
    try (destruct H as [H|H]; congruence).
Qed.

(** C7. A credential whose proof is an array is refused by the matcher with
    the proof-array error, whatever the other members of the credential and
    whatever the request (even one on which every other rule would fail, or
    one that has no options at all): the array rule is decided first. A
    credential with a single proof is never refused with that error. *)
Theorem proof_array_always_rejected (u : Utils) (c : W3cCredential)
    (request : json) :
  (forall proofs : list LinkedDataProof,
      verifyReceivedCredentialMatchesRequest u
        {| unsigned := c; proof := Many proofs |} request
      = Throws (AriesFrameworkError "Credential proof arrays are not supported"))
  /\ (forall p : LinkedDataProof,
         verifyReceivedCredentialMatchesRequest u
           {| unsigned := c; proof := Single p |} request
         <> Throws ProofArrayUnsupportedError).
Proof.
  split.
  - intros proofs. unfold verifyReceivedCredentialMatchesRequest.
    cbn [proof]. reflexivity.
  - intros p. unfold verifyReceivedCredentialMatchesRequest.
    cbn [proof]. unfold ProofArrayUnsupportedError.
    destruct request as [| | | | |members]; try discriminate;
      cbn [get bindR];
      destruct (lookup "options" members) as [[| | | | |options]|];
      cbn [get bindR];
      repeat match goal with
             | |- context [if ?b then _ else _] => destruct b
             end;
      discriminate.
Qed.

(** C4, as stated, fails: a request whose options carry [created] as the
    empty string has [created] present, the proof of the credential carries
    another value, and the matcher accepts the credential. *)
Lemma created_rule_skipped_for_empty_created :
  lookup "created" (sampleOptions ++ [("created", JStr EmptyString)])
  = Some (JStr EmptyString)
  /\ strict_eq (proof_created (sampleProofOf "2022-04-18T23:13:10Z"))
       (Some (JStr EmptyString)) = false
  /\ verifyReceivedCredentialMatchesRequest sampleUtils
       (sampleCredential (Single (sampleProofOf "2022-04-18T23:13:10Z")))
       (sampleRequest "did:example:123"
          (sampleOptions ++ [("created", JStr EmptyString)]))
     = Returns tt.
Proof. repeat split. Qed.

(** C4, amended. When the request's options carry a [created] that is
    truthy (a non-empty string), the matcher fails with the created error
    unless the proof's [created] is identical to it. When [created] is
    omitted, or present but falsy (the empty string), the rule is skipped:
    whatever the proof's [created] is, present or not, the matcher does not
    fail with the created error (the same holds when the two are
    identical), and replacing the proof's [created] by any other value, or
    by none, in a credential that is otherwise the same leaves the outcome
    of the matcher as it was. *)
Theorem created_rule (u : Utils) (c : W3cCredential) (p : LinkedDataProof)
    (request : json) (options created : value) :
  get (Some request) "options" = Returns options ->
  get options "created" = Returns created ->
  (truthy created = true ->
   strict_eq (proof_created p) created = false ->
   verifyReceivedCredentialMatchesRequest u
     {| unsigned := c; proof := Single p |} request
   = Throws CreatedMismatchError)
  /\ (truthy created = false \/ strict_eq (proof_created p) created = true ->
      verifyReceivedCredentialMatchesRequest u
        {| unsigned := c; proof := Single p |} request
      <> Throws CreatedMismatchError)
  /\ (truthy created = false ->
      forall (c' : W3cCredential) (created' : value),
        let p' := {| proof_type := proof_type p;
                     proof_proofPurpose := proof_proofPurpose p;
                     proof_created := created';
                     proof_domain := proof_domain p;
                     proof_challenge := proof_challenge p |} in
        delete "proof" (toJSON u {| unsigned := c'; proof := Single p' |})
        = delete "proof" (toJSON u {| unsigned := c; proof := Single p |}) ->
        verifyReceivedCredentialMatchesRequest u
          {| unsigned := c'; proof := Single p' |} request
        = verifyReceivedCredentialMatchesRequest u
            {| unsigned := c; proof := Single p |} request).
Proof.
  intros Hoptions Hcreated.
  unfold verifyReceivedCredentialMatchesRequest. cbn [proof].
  rewrite Hoptions. cbn [bindR]. rewrite Hcreated. cbn [bindR].
  split; [|split].
  3:{ intros Hfalsy c' created'. cbv zeta. intros Hplain.
      cbn [proof_type proof_proofPurpose proof_created proof_domain
           proof_challenge].
      rewrite Hfalsy, Hplain. reflexivity. }
  - intros Htruthy Hdiff. now rewrite Htruthy, Hdiff.
  - intros Hskip.
    assert (Hguard : truthy created
                     && negb (strict_eq (proof_created p) created) = false).
    { destruct Hskip as [H|H]; rewrite H; [reflexivity|].
      now rewrite andb_false_r. }
    rewrite Hguard. unfold CreatedMismatchError.
    destruct request as [| | | | |rm]; try discriminate Hoptions;
      destruct options as [[| | | | |members]|]; try discriminate Hcreated;
      cbn [get bindR];
      repeat match goal with
             | |- context [if ?b then _ else _] => destruct b
             end;
      discriminate.
Qed.

(** The created rule on a request that asks for another creation time. *)
Lemma created_rule_witness :
  verifyReceivedCredentialMatchesRequest sampleUtils
    (sampleCredential (Single (sampleProofOf "2022-04-18T23:13:10Z")))
    (sampleRequest "did:example:123"
       (sampleOptions ++ [("created", JStr "2021-01-01T00:00:00Z")]))
  = Throws CreatedMismatchError.
Proof.
  apply (proj1 (created_rule sampleUtils
                  {| issuer := IssuerString "did:example:123";
                     plain := sampleCredentialJson |}
                  (sampleProofOf "2022-04-18T23:13:10Z")
                  (sampleRequest "did:example:123"
                     (sampleOptions
                        ++ [("created", JStr "2021-01-01T00:00:00Z")]))
                  (Some (JObj (sampleOptions
                                 ++ [("created", JStr "2021-01-01T00:00:00Z")])))
                  (Some (JStr "2021-01-01T00:00:00Z"))
                  eq_refl eq_refl));
    reflexivity.
Defined.

(** ** Receiving a credential *)

Lemma withCalls_inj (w : World) (l l' : list Call) :
  withCalls w l = withCalls w l' -> l = l'.
Proof.
  intros H. apply (f_equal calls) in H. cbn in H.
  now apply app_inv_head in H.
Qed.

(** What [processCredential] does once the two attachments are decoded, the
    credential is transformed and the matcher has accepted it. *)
Lemma processCredential_matched (agentContext : AgentContext) (u : Utils)
    (attachment requestAttachment : V1Attachment) (w : World)
    (credentialAsJson requestAsJson : json)
    (credential : W3cVerifiableCredential) :
  getDataAsJson attachment = Returns credentialAsJson ->
  fromJSON_W3cVerifiableCredential u (Some credentialAsJson)
  = Returns credential ->
  getDataAsJson requestAttachment = Returns requestAsJson ->
  verifyReceivedCredentialMatchesRequest u credential requestAsJson
  = Returns tt ->
  let w3c := w3cCredentialService agentContext in
  let stored :=
    match storeCredential w3c credential with
    | Returns r =>
        (Returns tt,
         withBinding
           (withCalls w [VerifyCredential credential;
                         StoreCredential credential])
           {| binding_credentialRecordType := "w3c";
              binding_credentialRecordId := record_id r |})
    | Throws e =>
        (Throws e,
         withCalls w [VerifyCredential credential; StoreCredential credential])
    end in
  processCredential agentContext u attachment requestAttachment w =
  match verifyCredential w3c credential with
  | Throws e => (Throws e, withCalls w [VerifyCredential credential])
  | Returns None => stored
  | Returns (Some r) =>
      if verified r then stored
      else (Throws (VerificationFailedError (error r)),
            withCalls w [VerifyCredential credential])
  end.
Proof.
  intros Hatt Hcred Hreq Hmatch. cbv zeta.
  unfold processCredential. run.
  rewrite Hatt, Hcred, Hreq, Hmatch.
  fold (withCalls w [VerifyCredential credential]).
  destruct (verifyCredential _ credential) as [[[[] e]|]|e]; try reflexivity;
    unfold withCalls, withBinding; cbn [credentials calls];
    rewrite <- List.app_assoc;
    destruct (storeCredential _ credential); reflexivity.
Qed.

(** C10. Once the credential has been decoded, transformed and matched,
    and the verification service has answered: the failed-verification
    error is raised exactly when the answer is a result object whose
    [verified] is false; when the answer is [null] or [undefined] the
    credential is treated like a verified one, that is, the store is called
    and, when it returns, one binding is appended to the exchange record. *)
Theorem processCredential_null_result_is_verified
    (agentContext : AgentContext) (u : Utils)
    (attachment requestAttachment : V1Attachment) (w : World)
    (credentialAsJson requestAsJson : json)
    (credential : W3cVerifiableCredential)
    (result : option W3cVerifyCredentialResult) :
  getDataAsJson attachment = Returns credentialAsJson ->
  fromJSON_W3cVerifiableCredential u (Some credentialAsJson)
  = Returns credential ->
  getDataAsJson requestAttachment = Returns requestAsJson ->
  verifyReceivedCredentialMatchesRequest u credential requestAsJson
  = Returns tt ->
  verifyCredential (w3cCredentialService agentContext) credential
  = Returns result ->
  let outcome :=
    processCredential agentContext u attachment requestAttachment w in
  let verifiedOnly := withCalls w [VerifyCredential credential] in
  let verifiedAndStored :=
    withCalls w [VerifyCredential credential; StoreCredential credential] in
  (* the error is raised exactly on a result object that is not verified *)
  ((exists r, result = Some r /\ verified r = false) <->
   (exists reason,
      outcome = (Throws (VerificationFailedError reason), verifiedOnly)))
  /\ (forall r, result = Some r -> verified r = false ->
      outcome = (Throws (VerificationFailedError (error r)), verifiedOnly))
  (* null, undefined and a verified result all lead to the store *)
  /\ (result = None \/ (exists r, result = Some r /\ verified r = true) ->
      (forall record,
          storeCredential (w3cCredentialService agentContext) credential
          = Returns record ->
          outcome =
          (Returns tt,
           withBinding verifiedAndStored
             {| binding_credentialRecordType := "w3c";
                binding_credentialRecordId := record_id record |}))
      /\ (forall e,
             storeCredential (w3cCredentialService agentContext) credential
             = Throws e ->
             outcome = (Throws e, verifiedAndStored))).
Proof.
  intros Hatt Hcred Hreq Hmatch Hverify. cbv zeta.
  rewrite (processCredential_matched agentContext u attachment
             requestAttachment w _ _ _ Hatt Hcred Hreq Hmatch).
  cbv zeta. rewrite Hverify.
  set (stored := match storeCredential _ credential with
                 | Returns r => _
                 | Throws e => _
                 end).
  assert (Hstored : forall reason,
             stored <> (Throws (VerificationFailedError reason),
                        withCalls w [VerifyCredential credential])).
  { intros reason H. subst stored.
    destruct (storeCredential _ credential); [discriminate H|].
    apply (f_equal snd) in H. cbn [snd] in H.
    apply withCalls_inj in H. discriminate H. }
  split; [split|split].
  - intros (r & -> & Hr). rewrite Hr. eauto.
  - intros (reason & H). destruct result as [r|].
    + destruct (verified r) eqn:Hr; [|eauto].
      exfalso. exact (Hstored reason H).
    + exfalso. exact (Hstored reason H).
  - intros r -> Hr. now rewrite Hr.
  - intros Hok.
    assert (Hsame : match result with
                    | Some r =>
                        if verified r then stored
                        else (Throws (VerificationFailedError (error r)),
                              withCalls w [VerifyCredential credential])
                    | None => stored
                    end = stored).
    { destruct Hok as [->|(r & -> & Hr)]; [reflexivity|now rewrite Hr]. }
    rewrite Hsame. subst stored. split.
    + intros record ->. reflexivity.
    + intros e ->. reflexivity.
Qed.

(** A credential received from a verifier that answers [null]: it is stored and bound. *)
Lemma processCredential_null_result_witness :
  processCredential silentVerifierContext sampleUtils
    (getFormatData sampleCredentialJson "credential-0")
    (getFormatData sampleDetail "request-0") emptyWorld
  = (Returns tt,
     {| credentials :=
          [{| binding_credentialRecordType := "w3c";
              binding_credentialRecordId := "w3c-record-1" |}];
        calls :=
          [VerifyCredential
             (sampleCredential (Single (sampleProofOf "2022-04-18T23:13:10Z")));
           StoreCredential
             (sampleCredential (Single (sampleProofOf "2022-04-18T23:13:10Z")))]
     |}).
Proof.
  apply (proj1
           (proj2 (proj2
              (processCredential_null_result_is_verified
                 silentVerifierContext sampleUtils
                 (getFormatData sampleCredentialJson "credential-0")
                 (getFormatData sampleDetail "request-0") emptyWorld
                 sampleCredentialJson sampleDetail
                 (sampleCredential
                    (Single (sampleProofOf "2022-04-18T23:13:10Z")))
                 None
                 (getDataAsJson_getFormatData _ _) eq_refl
                 (getDataAsJson_getFormatData _ _) eq_refl eq_refl))
           (or_introl eq_refl))
          {| record_id := "w3c-record-1" |} eq_refl).
Defined.

(** Every run of [processCredential] ends in one of the ways [Receipt]
    lists. *)
Lemma processCredential_receipt (agentContext : AgentContext) (u : Utils)
    (attachment requestAttachment : V1Attachment) (w w' : World)
    (r : Result unit) :
  processCredential agentContext u attachment requestAttachment w = (r, w') ->
  Receipt agentContext u attachment requestAttachment w r w'.
Proof.
  intros Hrun.
  assert (Hearly : forall e,
             processCredential agentContext u attachment requestAttachment w
             = (Throws e, w) ->
             Receipt agentContext u attachment requestAttachment w r w').
  { intros e He. rewrite He in Hrun. injection Hrun as <- <-. constructor. }
  destruct (getDataAsJson attachment) as [cj|e] eqn:Hatt.
  2:{ apply (Hearly e). unfold processCredential. run. now rewrite Hatt. }
  destruct (fromJSON_W3cVerifiableCredential u (Some cj)) as [c|e] eqn:Hcred.
  2:{ apply (Hearly e). unfold processCredential. run.
      now rewrite Hatt, Hcred. }
  destruct (getDataAsJson requestAttachment) as [rj|e] eqn:Hreq.
  2:{ apply (Hearly e). unfold processCredential. run.
      now rewrite Hatt, Hcred, Hreq. }
  destruct (verifyReceivedCredentialMatchesRequest u c rj) as [[]|e] eqn:Hm.
  2:{ apply (Hearly e). unfold processCredential. run.
      now rewrite Hatt, Hcred, Hreq, Hm. }
  clear Hearly.
  assert (Hacc : acceptedByMatcher u attachment requestAttachment c).
  { exists cj, rj. auto. }
  rewrite (processCredential_matched agentContext u attachment
             requestAttachment w cj rj c Hatt Hcred Hreq Hm) in Hrun.
  cbv zeta in Hrun.
  destruct (verifyCredential _ c) as [verdict|e] eqn:Hv.
  2:{ injection Hrun as <- <-. now apply VerifierThrew. }
  assert (Hverdict : notRefuted verdict
                     \/ exists v, verdict = Some v /\ verified v = false).
  { destruct verdict as [v|]; [destruct (verified v) eqn:Hver|].
    - left. intros v' [= <-]. assumption.
    - right. eauto.
    - left. intros v' Hv'. discriminate Hv'. }
  destruct Hverdict as [Hgood|(v & -> & Hbad)].
  - assert (Hstore : (r, w')
                     = match storeCredential
                               (w3cCredentialService agentContext) c with
                       | Returns record =>
                           (Returns tt,
                            withBinding
                              (withCalls w [VerifyCredential c;
                                            StoreCredential c])
                              {| binding_credentialRecordType := "w3c";
                                 binding_credentialRecordId :=
                                   record_id record |})
                       | Throws e =>
                           (Throws e,
                            withCalls w [VerifyCredential c;
                                         StoreCredential c])
                       end).
    { destruct verdict as [v|]; [|now symmetry].
      rewrite (Hgood v eq_refl) in Hrun. now symmetry. }
    destruct (storeCredential _ c) as [record|e] eqn:Hs;
      injection Hstore as -> ->.
    + now apply (Stored _ _ _ _ _ c verdict record).
    + now apply (StoreThrew _ _ _ _ _ c verdict e).
  - rewrite Hbad in Hrun. injection Hrun as <- <-.
    now apply VerificationFailed.
Qed.

(** C3. Whatever [processCredential] is given and however it ends:
    - if it fails, the exchange record is as it was;
    - if it returns, then the matcher accepted the credential, the
      verification service was called and did not report a failure, the
      store was called and returned a record, these two calls were made in
      this order, and exactly one binding, of type [w3c] and with the id of
      the stored record, was appended to the exchange record;
    - the verification service is called only once the matcher has accepted
      the credential: any call made at all starts with the verification of
      a credential that the matcher accepted. *)
Theorem processCredential_appends_after_all_checks
    (agentContext : AgentContext) (u : Utils)
    (attachment requestAttachment : V1Attachment) (w w' : World)
    (r : Result unit) :
  processCredential agentContext u attachment requestAttachment w = (r, w') ->
  let w3c := w3cCredentialService agentContext in
  ((exists e, r = Throws e) -> credentials w' = credentials w)
  /\ (r = Returns tt ->
      exists c verdict record,
        acceptedByMatcher u attachment requestAttachment c
        /\ verifyCredential w3c c = Returns verdict
        /\ notRefuted verdict
        /\ storeCredential w3c c = Returns record
        /\ calls w' = (calls w ++ [VerifyCredential c; StoreCredential c])%list
        /\ credentials w'
           = (credentials w
                ++ [{| binding_credentialRecordType := "w3c";
                       binding_credentialRecordId := record_id record |}])%list)
  /\ (exists made,
         calls w' = (calls w ++ made)%list
         /\ (made <> [] ->
             exists c tail,
               acceptedByMatcher u attachment requestAttachment c
               /\ made = VerifyCredential c :: tail)).
Proof.
  intros Hrun. cbv zeta.
  destruct (processCredential_receipt _ _ _ _ _ _ _ Hrun)
    as [e|c e Hacc Hv|c v Hacc Hv Hbad|c verdict e Hacc Hv Hgood Hs
        |c verdict record Hacc Hv Hgood Hs].
  - split; [reflexivity|]. split; [discriminate|].
    exists []. rewrite List.app_nil_r. split; [reflexivity|congruence].
  - split; [reflexivity|]. split; [discriminate|].
    exists [VerifyCredential c]. split; [reflexivity|]. eauto.
  - split; [reflexivity|]. split; [discriminate|].
    exists [VerifyCredential c]. split; [reflexivity|]. eauto.
  - split; [reflexivity|]. split; [discriminate|].
    exists [VerifyCredential c; StoreCredential c].
    split; [reflexivity|]. eauto.
  - split; [intros (e & He); discriminate He|]. split.
    + intros _. exists c, verdict, record. repeat split; assumption.
    + exists [VerifyCredential c; StoreCredential c].
      split; [reflexivity|]. eauto.
Qed.

(** A credential whose domain does not match: the record keeps its one earlier binding. *)
Lemma processCredential_failure_witness :
  credentials
    (snd (processCredential sampleAgentContext sampleUtils
            (getFormatData sampleCredentialJson "credential-0")
            (getFormatData (sampleRequest "did:example:123"
                              (sampleOptions ++ [("domain", JStr "a")]))
                           "request-0")
            {| credentials :=
                 [{| binding_credentialRecordType := "w3c";
                     binding_credentialRecordId := "earlier" |}];
               calls := [] |}))
  = [{| binding_credentialRecordType := "w3c";
        binding_credentialRecordId := "earlier" |}].
Proof.
  assert (Hrun :
    processCredential sampleAgentContext sampleUtils
      (getFormatData sampleCredentialJson "credential-0")
      (getFormatData (sampleRequest "did:example:123"
                        (sampleOptions ++ [("domain", JStr "a")]))
                     "request-0")
      {| credentials :=
           [{| binding_credentialRecordType := "w3c";
               binding_credentialRecordId := "earlier" |}];
         calls := [] |}
    = (Throws (AriesFrameworkError
         "Received credential proof domain does not match domain from credential request"),
       {| credentials :=
            [{| binding_credentialRecordType := "w3c";
                binding_credentialRecordId := "earlier" |}];
          calls := [] |}))
    by (vm_compute; reflexivity).
  rewrite Hrun.
  apply (proj1 (processCredential_appends_after_all_checks _ _ _ _ _ _ _ Hrun)).
  eexists. reflexivity.
Defined.

(** ** Issuing a credential *)


(** [deriveVerificationMethod], once the credential is transformed: the
    resolver is called first, then the request's proof type is read and
    the key types are asked for. *)
Lemma deriveVerificationMethod_transformed (agentContext : AgentContext)
    (u : Utils) (credentialAsJson credentialRequest : value) (w : World)
    (credential : W3cCredential) :
  fromJSON_W3cCredential u credentialAsJson = Returns credential ->
  let issuerDid := issuerId (issuer credential) in
  let w3c := w3cCredentialService agentContext in
  deriveVerificationMethod agentContext u credentialAsJson credentialRequest w =
  match resolveDidDocument (didResolverService agentContext) issuerDid with
  | Throws e => (Throws e, withCalls w [ResolveDidDocument issuerDid])
  | Returns document =>
      match get credentialRequest "options" with
      | Throws e => (Throws e, withCalls w [ResolveDidDocument issuerDid])
      | Returns options =>
          match get options "proofType" with
          | Throws e => (Throws e, withCalls w [ResolveDidDocument issuerDid])
          | Returns proofType =>
              let w' :=
                withCalls w [ResolveDidDocument issuerDid;
                             GetVerificationMethodTypesByProofType proofType] in
              match getVerificationMethodTypesByProofType w3c proofType with
              | Throws e => (Throws e, w')
              | Returns None | Returns (Some []) =>
                  (Throws (UnsupportedProofTypeError proofType), w')
              | Returns (Some (first :: others)) =>
                  match findVerificationMethodByKeyType first document with
                  | Some m => (Returns (vm_id m), w')
                  | None =>
                      (Throws (VerificationMethodNotFoundError
                                 (first :: others)), w')
                  end
              end
          end
      end
  end.
Proof.
  intros Hcred. cbv zeta. unfold deriveVerificationMethod. run.
  rewrite Hcred.
  fold (withCalls w [ResolveDidDocument (issuerId (issuer credential))]).
  destruct (resolveDidDocument _ _) as [document|e]; [|reflexivity].
  destruct (get credentialRequest "options") as [options|e]; [|reflexivity].
  destruct (get options "proofType") as [proofType|e]; [|reflexivity].
  unfold withCalls. cbn [credentials calls]. rewrite <- List.app_assoc.
  cbn [app].
  destruct (getVerificationMethodTypesByProofType _ proofType)
    as [[[|first others]|]|e]; try reflexivity.
  destruct (findVerificationMethodByKeyType first document); reflexivity.
Qed.

(** [find] returns the first element that satisfies the test. *)
Lemma find_first {A : Type} (test : A -> bool) (before after : list A) (x : A) :
  (forall y, In y before -> test y = false) -> test x = true ->
  find test (before ++ x :: after) = Some x.
Proof.
  intros Hbefore Hx. induction before as [|y before IH]; cbn.
  - now rewrite Hx.
  - rewrite (Hbefore y) by now left. apply IH.
    intros z Hz. apply Hbefore. now right.
Qed.

Lemma find_nothing {A : Type} (test : A -> bool) (l : list A) :
  (forall y, In y l -> test y = false) -> find test l = None.
Proof.
  intros H. induction l as [|y l IH]; cbn; [reflexivity|].
  rewrite (H y) by now left. apply IH. intros z Hz. apply H. now right.
Qed.

(** C6, as stated, fails: with an issuer whose identity document cannot be
    resolved and a proof type that maps to no key type, the derivation
    fails with the resolver's error, not with the proof-type error. *)
Lemma deriveVerificationMethod_resolver_failure_first :
  getVerificationMethodTypesByProofType sampleW3cCredentialService
    (Some (JStr "UnknownSignature2099")) = Returns (Some [])
  /\ deriveVerificationMethod sampleAgentContext sampleUtils
       (Some (JObj (sampleClaims "did:example:404")))
       (Some (sampleRequest "did:example:404"
                [("proofType", JStr "UnknownSignature2099")]))
       emptyWorld
     = (Throws (CollaboratorError "Unable to resolve did document: notFound"),
        withCalls emptyWorld [ResolveDidDocument "did:example:404"])
  /\ CollaboratorError "Unable to resolve did document: notFound"
     <> UnsupportedProofTypeError (Some (JStr "UnknownSignature2099")).
Proof. repeat split. discriminate. Qed.

(** C6, amended. For every transformed credential, whose issuer is a bare
    identifier or an object with an [id]: the resolver is asked first for
    the identity document of that identifier, and its failure is propagated
    as it is, before the proof type is looked at. Once the document is
    resolved, the proof type read and the key types obtained: no key type
    (none at all, or an empty list) is the proof-type error; otherwise the
    first key type is the one searched for, the identifier of the first
    verification method of that type in the document is returned, and the
    absence of such a method is the method-not-found error. *)
Theorem deriveVerificationMethod_first_match (agentContext : AgentContext)
    (u : Utils) (credentialAsJson credentialRequest : value) (w : World)
    (credential : W3cCredential) :
  fromJSON_W3cCredential u credentialAsJson = Returns credential ->
  let issuerDid := issuerId (issuer credential) in
  let w3c := w3cCredentialService agentContext in
  let outcome :=
    deriveVerificationMethod agentContext u credentialAsJson
      credentialRequest w in
  (forall e,
      resolveDidDocument (didResolverService agentContext) issuerDid
      = Throws e ->
      outcome = (Throws e, withCalls w [ResolveDidDocument issuerDid]))
  /\ (forall document options proofType keyTypes,
         resolveDidDocument (didResolverService agentContext) issuerDid
         = Returns document ->
         get credentialRequest "options" = Returns options ->
         get options "proofType" = Returns proofType ->
         getVerificationMethodTypesByProofType w3c proofType
         = Returns keyTypes ->
         let w' :=
           withCalls w [ResolveDidDocument issuerDid;
                        GetVerificationMethodTypesByProofType proofType] in
         (keyTypes = None \/ keyTypes = Some [] ->
          outcome = (Throws (UnsupportedProofTypeError proofType), w'))
         /\ (forall first others before m after,
                keyTypes = Some (first :: others) ->
                verificationMethods document = (before ++ m :: after)%list ->
                vm_type m = first ->
                (forall x, In x before -> vm_type x <> first) ->
                outcome = (Returns (vm_id m), w'))
         /\ (forall first others,
                keyTypes = Some (first :: others) ->
                (forall x, In x (verificationMethods document) ->
                           vm_type x <> first) ->
                outcome
                = (Throws (VerificationMethodNotFoundError (first :: others)),
                   w'))).
Proof.
  intros Hcred. cbv zeta.
  rewrite (deriveVerificationMethod_transformed agentContext u
             credentialAsJson credentialRequest w credential Hcred).
  cbv zeta. split.
  - intros e ->. reflexivity.
  - intros document options proofType keyTypes -> -> -> ->.
    split; [|split].
    + intros [->| ->]; reflexivity.
    + intros first others before m after -> Hdoc Hm Hbefore.
      unfold findVerificationMethodByKeyType. rewrite Hdoc.
      rewrite find_first; [reflexivity| |].
      * intros y Hy. apply String.eqb_neq. now apply Hbefore.
      * now apply String.eqb_eq.
    + intros first others -> Hnone.
      unfold findVerificationMethodByKeyType.
      rewrite find_nothing; [reflexivity|].
      intros y Hy. apply String.eqb_neq. now apply Hnone.
Qed.

(** The derivation on the sample document: the first Ed25519 key, not the BBS key before it nor the Ed25519 key after it. *)
Lemma deriveVerificationMethod_first_match_witness :
  deriveVerificationMethod sampleAgentContext sampleUtils
    (Some (JObj (sampleClaims "did:example:123")))
    (Some sampleDetail) emptyWorld
  = (Returns "did:example:123#key-1",
     withCalls emptyWorld
       [ResolveDidDocument "did:example:123";
        GetVerificationMethodTypesByProofType
          (Some (JStr "Ed25519Signature2018"))]).
Proof.
  apply (proj1 (proj2
           (proj2 (deriveVerificationMethod_first_match
                     sampleAgentContext sampleUtils
                     (Some (JObj (sampleClaims "did:example:123")))
                     (Some sampleDetail) emptyWorld
                     sampleUnsigned eq_refl)
              sampleDidDocument (Some (JObj sampleOptions))
              (Some (JStr "Ed25519Signature2018"))
              (Some ["Ed25519VerificationKey2018";
                     "Ed25519VerificationKey2020"])
              eq_refl eq_refl eq_refl eq_refl))
          "Ed25519VerificationKey2018" ["Ed25519VerificationKey2020"]
          [{| vm_id := "did:example:123#key-bbs";
              vm_type := "Bls12381G2Key2020" |}]
          {| vm_id := "did:example:123#key-1";
             vm_type := "Ed25519VerificationKey2018" |}
          [{| vm_id := "did:example:123#key-2";
              vm_type := "Ed25519VerificationKey2018" |}]
          eq_refl eq_refl eq_refl).
  intros x [<-|[]]. discriminate.
Defined.

(** [acceptRequest] after the request is decoded and a verification method
    is chosen. *)
Lemma acceptRequest_chosen (agentContext : AgentContext) (u : Utils)
    (formats : option CredentialFormats) (attachId : option string)
    (requestAttachment : V1Attachment) (w w1 : World) (request : json)
    (method : string) :
  getDataAsJson requestAttachment = Returns request ->
  chooseVerificationMethod agentContext u formats request w
  = (Returns method, w1) ->
  acceptRequest agentContext u formats attachId requestAttachment w =
  if String.eqb method EmptyString then
    (Throws MissingVerificationMethodError, w1)
  else
    match get (Some request) "options" with
    | Throws e => (Throws e, w1)
    | Returns options =>
        match filterDefined options unsupportedFields with
        | Throws e => (Throws e, w1)
        | Returns found =>
            if Nat.ltb 0 (List.length found) then
              (Throws (UnsupportedOptionError found), w1)
            else
              match get (Some request) "credential" with
              | Throws e => (Throws e, w1)
              | Returns credentialAsJson =>
                  match fromJSON_W3cCredential u credentialAsJson with
                  | Throws e => (Throws e, w1)
                  | Returns credential =>
                      match get options "proofType" with
                      | Throws e => (Throws e, w1)
                      | Returns proofType =>
                          let signed :=
                            withCalls w1
                              [SignCredential credential proofType method] in
                          match signCredential
                                  (w3cCredentialService agentContext)
                                  credential proofType method with
                          | Throws e => (Throws e, signed)
                          | Returns verifiableCredential =>
                              let format :=
                                newCredentialFormatSpec u attachId JSONLD_VC in
                              (Returns
                                 (format,
                                  getFormatData
                                    (stringifyView u verifiableCredential)
                                    (spec_attachId format)),
                               signed)
                          end
                      end
                  end
              end
        end
    end.
Proof.
  intros Hreq Hchoice. unfold acceptRequest. run.
  rewrite Hreq, Hchoice.
  destruct (String.eqb method EmptyString); [reflexivity|].
  destruct (get (Some request) "options") as [options|e]; [|reflexivity].
  destruct (filterDefined options unsupportedFields) as [found|e];
    [|reflexivity].
  destruct (Nat.ltb 0 (List.length found)); [reflexivity|].
  destruct (get (Some request) "credential") as [cj|e]; [|reflexivity].
  destruct (fromJSON_W3cCredential u cj) as [c|e]; [|reflexivity].
  destruct (get options "proofType") as [pt|e]; [|reflexivity].
  cbv zeta. unfold withCalls.
  destruct (signCredential _ c pt method); reflexivity.
Qed.

Lemma acceptRequest_not_chosen (agentContext : AgentContext) (u : Utils)
    (formats : option CredentialFormats) (attachId : option string)
    (requestAttachment : V1Attachment) (w w1 : World) (request : json)
    (e : Error) :
  getDataAsJson requestAttachment = Returns request ->
  chooseVerificationMethod agentContext u formats request w = (Throws e, w1) ->
  acceptRequest agentContext u formats attachId requestAttachment w
  = (Throws e, w1).
Proof.
  intros Hreq Hchoice. unfold acceptRequest. run. now rewrite Hreq, Hchoice.
Qed.

Lemma acceptRequest_undecoded (agentContext : AgentContext) (u : Utils)
    (formats : option CredentialFormats) (attachId : option string)
    (requestAttachment : V1Attachment) (w : World) (e : Error) :
  getDataAsJson requestAttachment = Throws e ->
  acceptRequest agentContext u formats attachId requestAttachment w
  = (Throws e, w).
Proof. intros Hreq. unfold acceptRequest. run. now rewrite Hreq. Qed.

Lemma filterDefined_object (members : list (string * json)) :
  filterDefined (Some (JObj members)) unsupportedFields
  = Returns (present members "challenge" ++ present members "domain"
               ++ present members "credentialStatus"
               ++ present members "created")%list.
Proof.
  unfold unsupportedFields, present. cbn [filterDefined get bindR].
  destruct (lookup "challenge" members), (lookup "domain" members),
    (lookup "credentialStatus" members), (lookup "created" members);
    reflexivity.
Qed.

(** C2, as stated, fails: a request whose options set [challenge], from an
    issuer whose identity document cannot be resolved, is refused with the
    resolver's error; the unsupported-option error is never raised. *)
Lemma acceptRequest_resolver_failure_before_options :
  lookup "challenge" (sampleOptions ++ [("challenge", JStr "c1")])
  = Some (JStr "c1")
  /\ acceptRequest sampleAgentContext sampleUtils None None
       (getFormatData
          (sampleRequest "did:example:404"
             (sampleOptions ++ [("challenge", JStr "c1")]))
          "request-0")
       emptyWorld
     = (Throws (CollaboratorError "Unable to resolve did document: notFound"),
        withCalls emptyWorld [ResolveDidDocument "did:example:404"])
  /\ CollaboratorError "Unable to resolve did document: notFound"
     <> UnsupportedOptionError ["challenge"].
Proof.
  split; [reflexivity|]. split; [vm_compute; reflexivity|discriminate].
Qed.

(** C2, amended. [acceptRequest] settles the verification method first.
    Once the request is decoded to an object with an [options] object and a
    non-empty verification method has been obtained (supplied or derived):
    if any of [challenge], [domain], [credentialStatus], [created] is a
    member of the options, [acceptRequest] fails with the
    unsupported-option error whose message lists exactly the members that
    are set, all of them, in that fixed order, separated by a comma and a
    space; nothing is signed. If none of the four is set, the check passes:
    the credential is transformed and handed to the signing service. *)
Theorem acceptRequest_rejects_unsupported_options
    (agentContext : AgentContext) (u : Utils)
    (formats : option CredentialFormats) (attachId : option string)
    (requestAttachment : V1Attachment) (w w1 : World)
    (request options : list (string * json)) (method : string) :
  getDataAsJson requestAttachment = Returns (JObj request) ->
  lookup "options" request = Some (JObj options) ->
  chooseVerificationMethod agentContext u formats (JObj request) w
  = (Returns method, w1) ->
  method <> EmptyString ->
  let found :=
    (present options "challenge" ++ present options "domain"
       ++ present options "credentialStatus" ++ present options "created")%list in
  let outcome :=
    acceptRequest agentContext u formats attachId requestAttachment w in
  (found <> [] ->
   outcome
   = (Throws
        (AriesFrameworkError
           ("Some fields are not currently supported in credential options: "
              ++ String.concat ", " found)),
      w1))
  /\ (found = [] ->
      outcome =
      match fromJSON_W3cCredential u (lookup "credential" request) with
      | Throws e => (Throws e, w1)
      | Returns credential =>
          let proofType := lookup "proofType" options in
          let signed :=
            withCalls w1 [SignCredential credential proofType method] in
          match signCredential (w3cCredentialService agentContext)
                  credential proofType method with
          | Throws e => (Throws e, signed)
          | Returns verifiableCredential =>
              let format := newCredentialFormatSpec u attachId JSONLD_VC in
              (Returns (format,
                        getFormatData (stringifyView u verifiableCredential)
                          (spec_attachId format)),
               signed)
          end
      end).
Proof.
  intros Hreq Hoptions Hchoice Hmethod. cbv zeta.
  rewrite (acceptRequest_chosen agentContext u formats attachId
             requestAttachment w w1 (JObj request) method Hreq Hchoice).
  apply String.eqb_neq in Hmethod. rewrite Hmethod.
  cbn [get]. rewrite Hoptions, filterDefined_object.
  set (found := (present options "challenge" ++ _)%list).
  split.
  - intros Hfound. destruct found; [congruence|reflexivity].
  - intros ->. cbn [List.length Nat.ltb Nat.leb].
    destruct (fromJSON_W3cCredential u (lookup "credential" request));
      reflexivity.
Qed.

(** A request that sets [created] and [challenge]: both are listed, in the fixed order. *)
Lemma acceptRequest_rejects_unsupported_options_witness :
  acceptRequest sampleAgentContext sampleUtils None None
    (getFormatData
       (sampleRequest "did:example:123"
          (sampleOptions ++ [("created", JStr "2021-01-01T00:00:00Z");
                             ("challenge", JStr "c1")]))
       "request-0")
    emptyWorld
  = (Throws
       (AriesFrameworkError
          "Some fields are not currently supported in credential options: challenge, created"),
     withCalls emptyWorld
       [ResolveDidDocument "did:example:123";
        GetVerificationMethodTypesByProofType
          (Some (JStr "Ed25519Signature2018"))]).
Proof.
  apply (proj1
           (acceptRequest_rejects_unsupported_options
              sampleAgentContext sampleUtils None None
              (getFormatData
                 (sampleRequest "did:example:123"
                    (sampleOptions ++ [("created", JStr "2021-01-01T00:00:00Z");
                                       ("challenge", JStr "c1")]))
                 "request-0")
              emptyWorld
              (withCalls emptyWorld
                 [ResolveDidDocument "did:example:123";
                  GetVerificationMethodTypesByProofType
                    (Some (JStr "Ed25519Signature2018"))])
              [("credential", JObj (sampleClaims "did:example:123"));
               ("options",
                JObj (sampleOptions ++ [("created", JStr "2021-01-01T00:00:00Z");
                                        ("challenge", JStr "c1")]))]
              (sampleOptions ++ [("created", JStr "2021-01-01T00:00:00Z");
                                 ("challenge", JStr "c1")])
              "did:example:123#key-1"
              (getDataAsJson_getFormatData _ _) eq_refl eq_refl
              ltac:(discriminate))).
  discriminate.
Defined.




(** ** Encoding and the negotiation phases *)



(** ** Automatic responses *)

(** C1, as stated, fails: a credential attachment whose body is base64
    but not JSON (here the text [not json]) makes
    [shouldAutoRespondToCredential] throw the decoding error. *)
Lemma shouldAutoRespondToCredential_propagates_decoding_failure :
  base64_decode "bm90IGpzb24=" = Some "not json"
  /\ shouldAutoRespondToCredential sampleUtils
       (getFormatData sampleDetail "request-0")
       {| attachment_id := "credential-0";
          mimeType := "application/json";
          data := {| base64 := "bm90IGpzb24=" |} |}
     = Throws MalformedAttachmentError.
Proof. split; reflexivity. Qed.

(** C1, amended. Once the two attachments are decoded and the credential
    is transformed, [shouldAutoRespondToCredential] never throws: it
    returns [true] exactly when the whole matcher check succeeds, and
    [false] exactly when the matcher throws, whichever rule or property
    access failed. The decoding of either attachment and the transformation
    of the credential happen before the guarded region, and their failures
    are thrown to the caller as they are. *)
Theorem shouldAutoRespondToCredential_catches_matcher_only (u : Utils)
    (requestAttachment credentialAttachment : V1Attachment) :
  let answer :=
    shouldAutoRespondToCredential u requestAttachment credentialAttachment in
  (forall credentialJson credential request,
      getDataAsJson credentialAttachment = Returns credentialJson ->
      fromJSON_W3cVerifiableCredential u (Some credentialJson)
      = Returns credential ->
      getDataAsJson requestAttachment = Returns request ->
      exists b,
        answer = Returns b
        /\ (b = true <->
            verifyReceivedCredentialMatchesRequest u credential request
            = Returns tt)
        /\ (b = false <->
            exists e,
              verifyReceivedCredentialMatchesRequest u credential request
              = Throws e))
  /\ (forall e,
         getDataAsJson credentialAttachment = Throws e -> answer = Throws e)
  /\ (forall credentialJson e,
         getDataAsJson credentialAttachment = Returns credentialJson ->
         fromJSON_W3cVerifiableCredential u (Some credentialJson) = Throws e ->
         answer = Throws e)
  /\ (forall credentialJson credential e,
         getDataAsJson credentialAttachment = Returns credentialJson ->
         fromJSON_W3cVerifiableCredential u (Some credentialJson)
         = Returns credential ->
         getDataAsJson requestAttachment = Throws e ->
         answer = Throws e).
Proof.
  cbv zeta. unfold shouldAutoRespondToCredential.
  split; [|split; [|split]].
  - intros cj c rj H1 H2 H3.
    rewrite H1. cbn [bindR]. rewrite H2. cbn [bindR]. rewrite H3.
    cbn [bindR].
    destruct (verifyReceivedCredentialMatchesRequest u c rj) as [[]|e].
    + exists true. split; [reflexivity|]. split; [tauto|].
      split; [discriminate|]. intros (e & He). discriminate He.
    + exists false. split; [reflexivity|]. split.
      * split; discriminate.
      * split; eauto.
  - intros e ->. reflexivity.
  - intros cj e H1 H2. rewrite H1. cbn [bindR]. now rewrite H2.
  - intros cj c e H1 H2 H3.
    rewrite H1. cbn [bindR]. rewrite H2. cbn [bindR]. now rewrite H3.
Qed.

(** A credential that fails the domain rule: the answer is [false], nothing is thrown. *)
Lemma shouldAutoRespondToCredential_mismatch_witness :
  shouldAutoRespondToCredential sampleUtils
    (getFormatData (sampleRequest "did:example:123"
                      (sampleOptions ++ [("domain", JStr "a")]))
                   "request-0")
    (getFormatData sampleCredentialJson "credential-0")
  = Returns false.
Proof.
  destruct (proj1 (shouldAutoRespondToCredential_catches_matcher_only
                     sampleUtils
                     (getFormatData (sampleRequest "did:example:123"
                                       (sampleOptions ++ [("domain", JStr "a")]))
                                    "request-0")
                     (getFormatData sampleCredentialJson "credential-0"))
              sampleCredentialJson
              (sampleCredential (Single (sampleProofOf "2022-04-18T23:13:10Z")))
              (sampleRequest "did:example:123"
                 (sampleOptions ++ [("domain", JStr "a")]))
              (getDataAsJson_getFormatData _ _) eq_refl
              (getDataAsJson_getFormatData _ _))
    as (b & Hanswer & _ & Hfalse).
  rewrite Hanswer. f_equal. apply Hfalse.
  eexists. reflexivity.
Defined.


(** ** Creating and processing proposals, offers and requests *)

Lemma bindR_unit (r : Result unit) :
  bindR r (fun _ => Returns tt) = r.
Proof. destruct r as [[]|e]; reflexivity. Qed.

Lemma get_credential_truthy (payload : json) :
  truthy (Some payload) = true ->
  get (Some payload) "credential" = Returns (credentialOf payload).
Proof. intros Ht. destruct payload; try reflexivity. discriminate Ht. Qed.

(** X1. The three create operations succeed exactly on a truthy [jsonld]
    payload whose [credential] member passes the detail validation (the
    options and the payload as a whole are not validated); the attachment
    then decodes to the whole payload, is tagged with the detail format,
    and carries the id of the descriptor: a minted one for a proposal and
    a request, the requested one, if any, for an offer. A validation
    failure is thrown as it is. *)
Theorem create_operations_encode_payload (u : Utils)
    (formats : list (string * json)) (payload : json)
    (attachId : option string) :
  lookup "jsonld" formats = Some payload ->
  truthy (Some payload) = true ->
  let validated := fromJSON_JsonLdCredentialDetail u (credentialOf payload) in
  let made (id : string) : CredentialFormatSpec * V1Attachment :=
    ({| spec_attachId := id; spec_format := "aries/ld-proof-vc-detail@v1.0" |},
     getFormatData payload id) in
  (validated = Returns tt ->
   createProposal u (Some (JObj formats)) = Returns (made (uuid u))
   /\ createRequest u (Some (JObj formats)) = Returns (made (uuid u))
   /\ createOffer u (Some (JObj formats)) attachId
      = Returns (made (match attachId with Some i => i | None => uuid u end))
   /\ forall id, getDataAsJson (snd (made id)) = Returns payload)
  /\ (forall e, validated = Throws e ->
        createProposal u (Some (JObj formats)) = Throws e
        /\ createRequest u (Some (JObj formats)) = Throws e
        /\ createOffer u (Some (JObj formats)) attachId = Throws e).
Proof.
  intros Hpayload Htruthy. cbv zeta.
  unfold createProposal, createRequest, createOffer.
  change (get (Some (JObj formats)) "jsonld")
    with (Returns (lookup "jsonld" formats)).
  cbn [getOptional bindR]. rewrite Hpayload, Htruthy.
  cbn [negb]. rewrite (get_credential_truthy payload Htruthy).
  cbn [bindR]. split.
  - intros ->. cbn [bindR]. repeat split.
    intros id. cbn [snd]. apply getDataAsJson_getFormatData.
  - intros e ->. repeat split.
Qed.

(** A proposal and an offer created from [nestedDetail]. *)
Lemma create_operations_witness :
  createProposal sampleUtils (Some (JObj [("jsonld", nestedDetail)]))
  = Returns
      ({| spec_attachId := "6f1c2c3a-58a1-4d4e-9d6b-0a1b2c3d4e5f";
          spec_format := "aries/ld-proof-vc-detail@v1.0" |},
       getFormatData nestedDetail "6f1c2c3a-58a1-4d4e-9d6b-0a1b2c3d4e5f")
  /\ createOffer sampleUtils (Some (JObj [("jsonld", nestedDetail)]))
       (Some "offer-7")
     = Returns
         ({| spec_attachId := "offer-7";
             spec_format := "aries/ld-proof-vc-detail@v1.0" |},
          getFormatData nestedDetail "offer-7").
Proof.
  destruct (proj1 (create_operations_encode_payload sampleUtils
                     [("jsonld", nestedDetail)] nestedDetail (Some "offer-7")
                     eq_refl eq_refl) eq_refl)
    as (Hproposal & _ & Hoffer & _).
  split; [exact Hproposal|exact Hoffer].
Defined.

(** X2. Without a payload the create operations fail before anything is
    validated or encoded. When [credentialFormats] itself is [undefined],
    [createOffer] and [createRequest], which read [jsonld] through an
    optional chain, throw their missing-payload error, while
    [createProposal], which reads it directly, throws a [TypeError]. When
    [credentialFormats] is an object without a [jsonld] member, or with a
    falsy one, each operation throws its own missing-payload error. *)
Theorem create_operations_missing_payload (u : Utils)
    (attachId : option string) :
  createProposal u undefined
  = Throws (TypeError "Cannot read properties of undefined (reading 'jsonld')")
  /\ createOffer u undefined attachId
     = Throws (AriesFrameworkError "Missing jsonld payload in createOffer")
  /\ createRequest u undefined
     = Throws (AriesFrameworkError "Missing jsonld payload in createRequest")
  /\ (forall formats,
         match lookup "jsonld" formats with
         | Some payload => truthy (Some payload) = false
         | None => True
         end ->
         createProposal u (Some (JObj formats))
         = Throws (AriesFrameworkError
                     "Missing jsonld payload in createProposal")
         /\ createOffer u (Some (JObj formats)) attachId
            = Throws (AriesFrameworkError
                        "Missing jsonld payload in createOffer")
         /\ createRequest u (Some (JObj formats))
            = Throws (AriesFrameworkError
                        "Missing jsonld payload in createRequest")).
Proof.
  split; [reflexivity|]. split; [reflexivity|]. split; [reflexivity|].
  intros formats Hmissing.
  unfold createProposal, createOffer, createRequest.
  change (get (Some (JObj formats)) "jsonld")
    with (Returns (lookup "jsonld" formats)).
  cbn [getOptional bindR].
  destruct (lookup "jsonld" formats) as [payload|].
  - rewrite Hmissing. repeat split.
  - repeat split.
Qed.

(** X3. The three process operations refuse a decoded payload that is
    falsy ([null], [false], [0] or the empty string) with their
    missing-payload error; the validator's opinion on such a payload is
    never asked. *)
Theorem process_operations_reject_falsy_payload (u : Utils)
    (attachment : V1Attachment) (payload : json) :
  getDataAsJson attachment = Returns payload ->
  truthy (Some payload) = false ->
  processProposal u attachment
  = Throws (AriesFrameworkError
              "Missing jsonld credential proposal data payload")
  /\ processOffer u attachment
     = Throws (AriesFrameworkError
                 "Missing jsonld credential offer data payload")
  /\ processRequest u attachment
     = Throws (AriesFrameworkError
                 "Missing jsonld credential request data payload").
Proof.
  intros Hdecode Hfalsy.
  unfold processProposal, processOffer, processRequest.
  rewrite Hdecode. cbn [bindR]. rewrite Hfalsy. repeat split.
Qed.

(** An attachment that carries [null]. *)
Lemma process_operations_null_witness :
  processOffer sampleUtils (getFormatData JNull "offer-0")
  = Throws (AriesFrameworkError "Missing jsonld credential offer data payload").
Proof.
  apply (process_operations_reject_falsy_payload sampleUtils
           (getFormatData JNull "offer-0") JNull
           (getDataAsJson_getFormatData _ _) eq_refl).
Defined.

(** What a successful run of the common body of the create operations
    says about the payload. *)
Lemma create_body_returns (u : Utils) (message id : string) (payload : json)
    (format : CredentialFormatSpec) (attachment : V1Attachment) :
  (if negb (truthy (Some payload)) then
     Throws (AriesFrameworkError message)
   else
     bindR (get (Some payload) "credential")
       (fun credential =>
          bindR (fromJSON_JsonLdCredentialDetail u credential)
            (fun _ =>
               Returns ({| spec_attachId := id;
                           spec_format := JSONLD_VC_DETAIL |},
                        getFormatData payload id))))
  = Returns (format, attachment) ->
  truthy (Some payload) = true
  /\ fromJSON_JsonLdCredentialDetail u (credentialOf payload) = Returns tt
  /\ format = {| spec_attachId := id; spec_format := JSONLD_VC_DETAIL |}
  /\ attachment = getFormatData payload id.
Proof.
  intros Hrun.
  destruct (truthy (Some payload)) eqn:Ht; [|discriminate Hrun].
  cbn [negb] in Hrun.
  rewrite (get_credential_truthy payload Ht) in Hrun.
  cbn [bindR] in Hrun.
  destruct (fromJSON_JsonLdCredentialDetail u (credentialOf payload))
    as [[]|e]; [|discriminate Hrun].
  cbn [bindR] in Hrun. injection Hrun as <- <-. auto.
Qed.

Lemma created_from_payload (u : Utils) (credentialFormats : value)
    (attachId : option string) (format : CredentialFormatSpec)
    (attachment : V1Attachment) :
  createProposal u credentialFormats = Returns (format, attachment)
  \/ createOffer u credentialFormats attachId = Returns (format, attachment)
  \/ createRequest u credentialFormats = Returns (format, attachment) ->
  exists payload id,
    getOptional credentialFormats "jsonld" = Some payload
    /\ truthy (Some payload) = true
    /\ fromJSON_JsonLdCredentialDetail u (credentialOf payload) = Returns tt
    /\ format = {| spec_attachId := id; spec_format := JSONLD_VC_DETAIL |}
    /\ attachment = getFormatData payload id.
Proof.
  intros [Hrun|[Hrun|Hrun]].
  - unfold createProposal in Hrun.
    destruct credentialFormats as [[| | | | |members]|];
      try discriminate Hrun;
      change (get (Some (JObj members)) "jsonld")
        with (Returns (lookup "jsonld" members)) in Hrun;
      cbn [bindR] in Hrun; cbn [getOptional].
    destruct (lookup "jsonld" members) as [payload|];
      [|discriminate Hrun].
    apply create_body_returns in Hrun. exists payload. eexists.
    split; [reflexivity|exact Hrun].
  - unfold createOffer in Hrun. cbv zeta in Hrun.
    destruct (getOptional credentialFormats "jsonld") as [payload|];
      [|discriminate Hrun].
    apply create_body_returns in Hrun. exists payload. eexists.
    split; [reflexivity|exact Hrun].
  - unfold createRequest in Hrun. cbv zeta in Hrun.
    destruct (getOptional credentialFormats "jsonld") as [payload|];
      [|discriminate Hrun].
    apply create_body_returns in Hrun. exists payload. eexists.
    split; [reflexivity|exact Hrun].
Qed.

(** X4. Processing what was created. An attachment returned by a create
    operation always decodes, to the payload it was created from, and that
    payload is truthy: each process operation on it answers exactly what
    the detail validation answers on the whole payload. (The create
    operation had validated the [credential] member of that payload.) *)
Theorem process_after_create (u : Utils) (credentialFormats : value)
    (attachId : option string) (format : CredentialFormatSpec)
    (attachment : V1Attachment) :
  createProposal u credentialFormats = Returns (format, attachment)
  \/ createOffer u credentialFormats attachId = Returns (format, attachment)
  \/ createRequest u credentialFormats = Returns (format, attachment) ->
  exists payload,
    getOptional credentialFormats "jsonld" = Some payload
    /\ fromJSON_JsonLdCredentialDetail u (credentialOf payload) = Returns tt
    /\ getDataAsJson attachment = Returns payload
    /\ processProposal u attachment
       = fromJSON_JsonLdCredentialDetail u (Some payload)
    /\ processOffer u attachment
       = fromJSON_JsonLdCredentialDetail u (Some payload)
    /\ processRequest u attachment
       = fromJSON_JsonLdCredentialDetail u (Some payload).
Proof.
  intros Hcreated.
  destruct (created_from_payload u credentialFormats attachId format
              attachment Hcreated)
    as (payload & id & Hj & Ht & Hvalid & _ & ->).
  exists payload. split; [assumption|]. split; [assumption|].
  split; [apply getDataAsJson_getFormatData|].
  unfold processProposal, processOffer, processRequest.
  rewrite getDataAsJson_getFormatData. cbn [bindR]. rewrite Ht.
  cbn [negb]. rewrite bindR_unit. auto.
Qed.

(** The proposal created from [nestedDetail] is accepted when processed. *)
Lemma process_after_create_witness :
  processProposal sampleUtils
    (getFormatData nestedDetail "6f1c2c3a-58a1-4d4e-9d6b-0a1b2c3d4e5f")
  = Returns tt.
Proof.
  destruct (process_after_create sampleUtils
              (Some (JObj [("jsonld", nestedDetail)])) None
              {| spec_attachId := "6f1c2c3a-58a1-4d4e-9d6b-0a1b2c3d4e5f";
                 spec_format := "aries/ld-proof-vc-detail@v1.0" |}
              (getFormatData nestedDetail
                 "6f1c2c3a-58a1-4d4e-9d6b-0a1b2c3d4e5f")
              (or_introl eq_refl))
    as (payload & Hj & _ & _ & Hprocess & _).
  injection Hj as <-. rewrite Hprocess. reflexivity.
Defined.

(** X5. The negotiation chain. A proposal that [processProposal] accepts is
    accepted by [acceptProposal]; the offer this returns is accepted by
    [processOffer] and by [acceptOffer]; the request this returns is
    accepted by [processRequest] and decodes to the detail of the
    proposal. *)
Theorem negotiation_chain (u : Utils) (offerId requestId : option string)
    (proposalAttachment : V1Attachment) :
  processProposal u proposalAttachment = Returns tt ->
  exists detail offerFormat offer requestFormat request,
    getDataAsJson proposalAttachment = Returns detail
    /\ acceptProposal u offerId proposalAttachment
       = Returns (offerFormat, offer)
    /\ processOffer u offer = Returns tt
    /\ acceptOffer u requestId offer = Returns (requestFormat, request)
    /\ processRequest u request = Returns tt
    /\ getDataAsJson request = Returns detail.
Proof.
  intros Hprocess. unfold processProposal in Hprocess.
  destruct (getDataAsJson proposalAttachment) as [detail|e] eqn:Hdecode;
    [|discriminate Hprocess].
  cbn [bindR] in Hprocess.
  destruct (truthy (Some detail)) eqn:Ht; [|discriminate Hprocess].
  cbn [negb] in Hprocess. rewrite bindR_unit in Hprocess.
  exists detail.
  unfold acceptProposal, acceptOffer, processOffer, processRequest.
  rewrite Hdecode. cbn [bindR]. rewrite Hprocess. cbn [bindR].
  exists (newCredentialFormatSpec u offerId JSONLD_VC_DETAIL).
  exists (getFormatData detail
            (spec_attachId (newCredentialFormatSpec u offerId
                              JSONLD_VC_DETAIL))).
  exists (newCredentialFormatSpec u requestId JSONLD_VC_DETAIL).
  exists (getFormatData detail
            (spec_attachId (newCredentialFormatSpec u requestId
                              JSONLD_VC_DETAIL))).
  rewrite !getDataAsJson_getFormatData. cbn [bindR].
  rewrite Ht, Hprocess. cbn [negb bindR].
  repeat split.
Qed.

(** The chain from a proposal that carries [sampleDetail]. *)
Lemma negotiation_chain_witness :
  exists offerFormat offer requestFormat request,
    acceptProposal sampleUtils (Some "offer-1")
      (getFormatData sampleDetail "proposal-1")
    = Returns (offerFormat, offer)
    /\ processOffer sampleUtils offer = Returns tt
    /\ acceptOffer sampleUtils (Some "request-1") offer
       = Returns (requestFormat, request)
    /\ processRequest sampleUtils request = Returns tt.
Proof.
  destruct (negotiation_chain sampleUtils (Some "offer-1") (Some "request-1")
              (getFormatData sampleDetail "proposal-1"))
    as (detail & offerFormat & offer & requestFormat & request
        & _ & H1 & H2 & H3 & H4 & _).
  - vm_compute. reflexivity.
  - exists offerFormat, offer, requestFormat, request. auto.
Defined.

(** X6. The three automatic-response tests on proposals, offers and
    requests decode the two attachments (for a proposal and an offer: the
    proposal first, then the offer; for a request: the offer first, then
    the request) and answer [areObjectsEqual] of the two payloads, in that
    order. A decoding failure is thrown to the caller: nothing is caught
    here. The tests for a proposal and for an offer are the same test. *)
Theorem auto_respond_compares_decoded_payloads (u : Utils)
    (first second : V1Attachment) :
  let answer := areCredentialsEqual u first second in
  shouldAutoRespondToProposal u second first = answer
  /\ shouldAutoRespondToOffer u second first = answer
  /\ shouldAutoRespondToRequest u first second = answer
  /\ (forall e, getDataAsJson first = Throws e -> answer = Throws e)
  /\ (forall a e,
         getDataAsJson first = Returns a ->
         getDataAsJson second = Throws e -> answer = Throws e)
  /\ (forall a b,
         getDataAsJson first = Returns a ->
         getDataAsJson second = Returns b ->
         answer = Returns (areObjectsEqual u a (Some b))).
Proof.
  cbv zeta. unfold shouldAutoRespondToProposal, shouldAutoRespondToOffer,
    shouldAutoRespondToRequest, areCredentialsEqual.
  repeat split.
  - intros e ->. reflexivity.
  - intros a e -> ->. reflexivity.
  - intros a b -> ->. reflexivity.
Qed.

(** X7. An offer returned by [acceptProposal] carries the payload of the
    proposal, and a request returned by [acceptOffer] carries the payload
    of the offer: the automatic-response tests on these pairs all answer
    what [areObjectsEqual] answers on the detail compared with itself. *)
Theorem auto_respond_after_accept (u : Utils) (offerId : option string)
    (proposalAttachment offer : V1Attachment)
    (offerFormat : CredentialFormatSpec) :
  acceptProposal u offerId proposalAttachment = Returns (offerFormat, offer) ->
  exists detail,
    getDataAsJson proposalAttachment = Returns detail
    /\ shouldAutoRespondToProposal u offer proposalAttachment
       = Returns (areObjectsEqual u detail (Some detail))
    /\ shouldAutoRespondToOffer u offer proposalAttachment
       = Returns (areObjectsEqual u detail (Some detail))
    /\ (forall requestId requestFormat request,
           acceptOffer u requestId offer = Returns (requestFormat, request) ->
           shouldAutoRespondToRequest u offer request
           = Returns (areObjectsEqual u detail (Some detail))).
Proof.
  intros Haccept. unfold acceptProposal in Haccept.
  destruct (getDataAsJson proposalAttachment) as [detail|e] eqn:Hdecode;
    [|discriminate Haccept].
  cbn [bindR] in Haccept.
  destruct (fromJSON_JsonLdCredentialDetail u (Some detail)) as [[]|e];
    [|discriminate Haccept].
  cbn [bindR] in Haccept. injection Haccept as _ <-.
  exists detail. split; [reflexivity|].
  unfold shouldAutoRespondToProposal, shouldAutoRespondToOffer,
    shouldAutoRespondToRequest, areCredentialsEqual.
  rewrite Hdecode, getDataAsJson_getFormatData. cbn [bindR].
  split; [reflexivity|]. split; [reflexivity|].
  intros requestId requestFormat request Hrequest.
  unfold acceptOffer in Hrequest.
  rewrite getDataAsJson_getFormatData in Hrequest. cbn [bindR] in Hrequest.
  destruct (fromJSON_JsonLdCredentialDetail u (Some detail)) as [[]|e];
    [|discriminate Hrequest].
  cbn [bindR] in Hrequest. injection Hrequest as _ <-.
  now rewrite getDataAsJson_getFormatData.
Qed.

(** The offer made for the sample proposal is answered automatically. *)
Lemma auto_respond_after_accept_witness :
  shouldAutoRespondToOffer sampleUtils
    (getFormatData sampleDetail "offer-1")
    (getFormatData sampleDetail "proposal-1")
  = Returns true.
Proof.
  destruct (auto_respond_after_accept sampleUtils (Some "offer-1")
              (getFormatData sampleDetail "proposal-1")
              (getFormatData sampleDetail "offer-1")
              {| spec_attachId := "offer-1";
                 spec_format := "aries/ld-proof-vc-detail@v1.0" |})
    as (detail & Hdetail & _ & Hoffer & _).
  - vm_compute. reflexivity.
  - rewrite Hoffer.
    rewrite getDataAsJson_getFormatData in Hdetail.
    injection Hdetail as <-. reflexivity.
Defined.

(** ** The matcher, rule by rule *)

Lemma get_readable (v : value) (k : string) :
  readable v = true -> get v k = Returns (getOptional v k).
Proof. destruct v as [[]|]; intros H; try reflexivity; discriminate H. Qed.

Lemma get_unreadable (v : value) (k : string) :
  readable v = false -> exists message, get v k = Throws (TypeError message).
Proof.
  destruct v as [[]|]; intros H; try discriminate H; eexists; reflexivity.
Qed.

Lemma readable_options_object (request : json) :
  readable (getOptional (Some request) "options") = true ->
  exists members, request = JObj members.
Proof. destruct request; intros H; try discriminate H. eauto. Qed.

(** The matcher on a single proof and a request whose options can be
    read: the rules, in the order of the source. *)
Lemma matcher_readable (u : Utils) (c : W3cCredential) (p : LinkedDataProof)
    (request : json) :
  let options := getOptional (Some request) "options" in
  readable options = true ->
  verifyReceivedCredentialMatchesRequest u
    {| unsigned := c; proof := Single p |} request =
  if truthy (getOptional options "created")
     && negb (strict_eq (proof_created p) (getOptional options "created"))
  then Throws CreatedMismatchError
  else if negb (strict_eq (proof_domain p) (getOptional options "domain"))
  then Throws DomainMismatchError
  else if negb (strict_eq (proof_challenge p)
                  (getOptional options "challenge"))
  then Throws (AriesFrameworkError
    "Received credential proof challenge does not match challenge from credential request")
  else if negb (strict_eq (proof_type p) (getOptional options "proofType"))
  then Throws (AriesFrameworkError
    "Received credential proof type does not match proof type from credential request")
  else if negb (strict_eq (proof_proofPurpose p)
                  (getOptional options "proofPurpose"))
  then Throws (AriesFrameworkError
    "Received credential proof purpose does not match proof purpose from credential request")
  else if negb (areObjectsEqual u
                  (delete "proof"
                     (toJSON u {| unsigned := c; proof := Single p |}))
                  (getOptional (Some request) "credential"))
  then Throws (AriesFrameworkError
    "Received credential does not match credential request")
  else Returns tt.
Proof.
  cbv zeta. intros Hreadable.
  destruct (readable_options_object request Hreadable) as (members & ->).
  unfold verifyReceivedCredentialMatchesRequest. cbn [proof].
  change (get (Some (JObj members)) "options")
    with (Returns (getOptional (Some (JObj members)) "options")).
  change (get (Some (JObj members)) "credential")
    with (Returns (getOptional (Some (JObj members)) "credential")).
  cbn [bindR].
  rewrite !(get_readable _ _ Hreadable). cbn [bindR].
  repeat match goal with
         | |- context [if ?b then _ else _] => destruct b; try reflexivity
         end.
Qed.

Lemma matcher_unreadable (u : Utils) (c : W3cCredential) (p : LinkedDataProof)
    (request : json) :
  readable (getOptional (Some request) "options") = false ->
  exists message,
    verifyReceivedCredentialMatchesRequest u
      {| unsigned := c; proof := Single p |} request
    = Throws (TypeError message).
Proof.
  intros Hunreadable.
  unfold verifyReceivedCredentialMatchesRequest. cbn [proof].
  destruct request as [| | | | |members];
    try (eexists; reflexivity).
  change (get (Some (JObj members)) "options")
    with (Returns (getOptional (Some (JObj members)) "options")).
  cbn [bindR].
  destruct (get_unreadable _ "created" Hunreadable) as (message & ->).
  eexists. reflexivity.
Qed.

(** X8. The matcher accepts a credential with a single proof exactly when
    the options of the request can be read (the request is an object whose
    [options] member is neither absent nor [null]) and every rule holds:
    [created] is falsy in the request or identical in the proof; [domain],
    [challenge], the proof type and the proof purpose are identical in the
    proof and in the options, an absent member being identical only to an
    absent member; and [areObjectsEqual] holds of the plain credential,
    its [proof] member deleted, and the [credential] member of the
    request. *)
Theorem matcher_accepts_iff (u : Utils) (c : W3cCredential)
    (p : LinkedDataProof) (request : json) :
  let options := getOptional (Some request) "options" in
  verifyReceivedCredentialMatchesRequest u
    {| unsigned := c; proof := Single p |} request = Returns tt
  <->
  readable options = true
  /\ (truthy (getOptional options "created") = false
      \/ strict_eq (proof_created p) (getOptional options "created") = true)
  /\ strict_eq (proof_domain p) (getOptional options "domain") = true
  /\ strict_eq (proof_challenge p) (getOptional options "challenge") = true
  /\ strict_eq (proof_type p) (getOptional options "proofType") = true
  /\ strict_eq (proof_proofPurpose p) (getOptional options "proofPurpose")
     = true
  /\ areObjectsEqual u
       (delete "proof" (toJSON u {| unsigned := c; proof := Single p |}))
       (getOptional (Some request) "credential") = true.
Proof.
  cbv zeta.
  destruct (readable (getOptional (Some request) "options")) eqn:Hreadable.
  - rewrite (matcher_readable u c p request Hreadable).
    destruct (truthy _), (strict_eq (proof_created p) _),
      (strict_eq (proof_domain p) _), (strict_eq (proof_challenge p) _),
      (strict_eq (proof_type p) _), (strict_eq (proof_proofPurpose p) _),
      (areObjectsEqual u _ _); cbn;
      split; intros H; try discriminate H; try reflexivity;
      try (repeat split; auto; fail);
      destruct H as (_ & H1 & H2 & H3 & H4 & H5 & H6);
      try discriminate; destruct H1 as [H1|H1]; discriminate.
  - destruct (matcher_unreadable u c p request Hreadable) as (message & ->).
    split; [discriminate|]. intros (H & _). discriminate H.
Qed.

(** X9. The domain rule. The matcher fails with the domain error exactly
    when the options can be read, the created rule passes, and the proof's
    [domain] is not identical to the request's. The comparison is strict:
    a domain that is absent from the request is matched by an absent domain
    in the proof and by nothing else. *)
Theorem domain_rule (u : Utils) (c : W3cCredential) (p : LinkedDataProof)
    (request : json) :
  let options := getOptional (Some request) "options" in
  (verifyReceivedCredentialMatchesRequest u
     {| unsigned := c; proof := Single p |} request
   = Throws DomainMismatchError
   <->
   readable options = true
   /\ (truthy (getOptional options "created") = false
       \/ strict_eq (proof_created p) (getOptional options "created") = true)
   /\ strict_eq (proof_domain p) (getOptional options "domain") = false)
  /\ (forall a : value, strict_eq a undefined = true <-> a = undefined).
Proof.
  cbv zeta. split.
  2:{ intros [[]|]; cbn; split; intros H; try reflexivity; discriminate H. }
  destruct (readable (getOptional (Some request) "options")) eqn:Hreadable.
  - rewrite (matcher_readable u c p request Hreadable).
    unfold CreatedMismatchError, DomainMismatchError.
    destruct (truthy _), (strict_eq (proof_created p) _),
      (strict_eq (proof_domain p) _), (strict_eq (proof_challenge p) _),
      (strict_eq (proof_type p) _), (strict_eq (proof_proofPurpose p) _),
      (areObjectsEqual u _ _); cbn;
      split; intros H; try discriminate H; try reflexivity;
      try (repeat split; auto; fail);
      destruct H as (_ & H1 & H2);
      try discriminate; destruct H1 as [H1|H1]; discriminate.
  - destruct (matcher_unreadable u c p request Hreadable) as (message & ->).
    split; [discriminate|]. intros (H & _). discriminate H.
Qed.

(** A received credential whose proof carries a domain the request did not
    ask for. *)
Lemma domain_rule_witness :
  verifyReceivedCredentialMatchesRequest sampleUtils
    (sampleCredential
       (Single {| proof_type := Some (JStr "Ed25519Signature2018");
                  proof_proofPurpose := Some (JStr "assertionMethod");
                  proof_created := Some (JStr "2022-04-18T23:13:10Z");
                  proof_domain := Some (JStr "b");
                  proof_challenge := None |}))
    sampleDetail
  = Throws DomainMismatchError.
Proof.
  apply (proj1 (domain_rule sampleUtils
                  {| issuer := IssuerString "did:example:123";
                     plain := sampleCredentialJson |}
                  {| proof_type := Some (JStr "Ed25519Signature2018");
                     proof_proofPurpose := Some (JStr "assertionMethod");
                     proof_created := Some (JStr "2022-04-18T23:13:10Z");
                     proof_domain := Some (JStr "b");
                     proof_challenge := None |}
                  sampleDetail)).
  repeat split. left. reflexivity.
Defined.

(** X10. A request whose options cannot be read (the decoded request is
    not an object, or has no [options] member, or a [null] one) makes the
    matcher throw a [TypeError] on a credential with a single proof. In
    [shouldAutoRespondToCredential] that error is caught and the answer is
    [false]; in [processCredential] it is thrown to the caller, before any
    collaborator is called and with the exchange record as it was. *)
Theorem request_without_options (agentContext : AgentContext) (u : Utils)
    (attachment requestAttachment : V1Attachment) (w : World)
    (credentialAsJson request : json) (c : W3cCredential)
    (p : LinkedDataProof) :
  getDataAsJson attachment = Returns credentialAsJson ->
  fromJSON_W3cVerifiableCredential u (Some credentialAsJson)
  = Returns {| unsigned := c; proof := Single p |} ->
  getDataAsJson requestAttachment = Returns request ->
  readable (getOptional (Some request) "options") = false ->
  exists message,
    verifyReceivedCredentialMatchesRequest u
      {| unsigned := c; proof := Single p |} request
    = Throws (TypeError message)
    /\ shouldAutoRespondToCredential u requestAttachment attachment
       = Returns false
    /\ processCredential agentContext u attachment requestAttachment w
       = (Throws (TypeError message), w).
Proof.
  intros Hatt Hcred Hreq Hunreadable.
  destruct (matcher_unreadable u c p request Hunreadable) as (message & Hm).
  exists message. split; [assumption|]. split.
  - unfold shouldAutoRespondToCredential.
    rewrite Hatt. cbn [bindR]. rewrite Hcred. cbn [bindR].
    rewrite Hreq. cbn [bindR]. now rewrite Hm.
  - unfold processCredential. run. now rewrite Hatt, Hcred, Hreq, Hm.
Qed.

(** A request that carries only a [credential] member. *)
Lemma request_without_options_witness :
  shouldAutoRespondToCredential sampleUtils
    (getFormatData
       (JObj [("credential", JObj (sampleClaims "did:example:123"))])
       "request-0")
    (getFormatData sampleCredentialJson "credential-0")
  = Returns false.
Proof.
  destruct (request_without_options sampleAgentContext sampleUtils
              (getFormatData sampleCredentialJson "credential-0")
              (getFormatData
                 (JObj [("credential", JObj (sampleClaims "did:example:123"))])
                 "request-0")
              emptyWorld sampleCredentialJson
              (JObj [("credential", JObj (sampleClaims "did:example:123"))])
              {| issuer := IssuerString "did:example:123";
                 plain := sampleCredentialJson |}
              (sampleProofOf "2022-04-18T23:13:10Z")
              (getDataAsJson_getFormatData _ _) eq_refl
              (getDataAsJson_getFormatData _ _) eq_refl)
    as (message & _ & Hanswer & _).
  exact Hanswer.
Defined.

(** X11. The automatic-response test predicts the matcher step of
    [processCredential] on the same two attachments. If the test answers
    [true], [processCredential] calls the verification service: it can
    still fail, but only after that call. If the test answers [false],
    [processCredential] fails without calling any collaborator and leaves
    the world as it was. *)
Theorem auto_respond_predicts_processing (agentContext : AgentContext)
    (u : Utils) (attachment requestAttachment : V1Attachment) (w : World)
    (answer : bool) :
  shouldAutoRespondToCredential u requestAttachment attachment
  = Returns answer ->
  let outcome :=
    processCredential agentContext u attachment requestAttachment w in
  (answer = true ->
   exists c tail,
     acceptedByMatcher u attachment requestAttachment c
     /\ calls (snd outcome) = (calls w ++ VerifyCredential c :: tail)%list)
  /\ (answer = false ->
      exists e, outcome = (Throws e, w)).
Proof.
  intros Hanswer. cbv zeta. unfold shouldAutoRespondToCredential in Hanswer.
  destruct (getDataAsJson attachment) as [cj|e] eqn:Hatt;
    [|discriminate Hanswer].
  cbn [bindR] in Hanswer.
  destruct (fromJSON_W3cVerifiableCredential u (Some cj)) as [c|e] eqn:Hcred;
    [|discriminate Hanswer].
  cbn [bindR] in Hanswer.
  destruct (getDataAsJson requestAttachment) as [rj|e] eqn:Hreq;
    [|discriminate Hanswer].
  cbn [bindR] in Hanswer.
  destruct (verifyReceivedCredentialMatchesRequest u c rj) as [[]|e] eqn:Hm;
    injection Hanswer as <-.
  - split; [intros _|discriminate].
    rewrite (processCredential_matched agentContext u attachment
               requestAttachment w cj rj c Hatt Hcred Hreq Hm).
    cbv zeta. exists c.
    assert (Hacc : acceptedByMatcher u attachment requestAttachment c).
    { exists cj, rj. rewrite Hatt, Hreq. auto. }
    destruct (verifyCredential _ c) as [[[[] reason]|]|e];
      try (exists []; split; [exact Hacc|reflexivity]);
      destruct (storeCredential _ c);
      exists [StoreCredential c]; split; try exact Hacc; reflexivity.
  - split; [discriminate|intros _].
    exists e. unfold processCredential. run.
    now rewrite Hatt, Hcred, Hreq, Hm.
Qed.

(** The sample credential against the sample request: the test answers
    [true] and the verification service is called. *)
Lemma auto_respond_predicts_processing_witness :
  exists c tail,
    calls (snd (processCredential sampleAgentContext sampleUtils
                  (getFormatData sampleCredentialJson "credential-0")
                  (getFormatData sampleDetail "request-0") emptyWorld))
    = VerifyCredential c :: tail.
Proof.
  destruct (proj1 (auto_respond_predicts_processing
                     sampleAgentContext sampleUtils
                     (getFormatData sampleCredentialJson "credential-0")
                     (getFormatData sampleDetail "request-0") emptyWorld
                     true ltac:(vm_compute; reflexivity)) eq_refl)
    as (c & tail & _ & Hcalls).
  exists c, tail. exact Hcalls.
Defined.

(** ** What issuing calls and leaves alone *)

Lemma withCalls_nil (w : World) : withCalls w [] = w.
Proof. destruct w. unfold withCalls. cbn. now rewrite List.app_nil_r. Qed.

Lemma deriveVerificationMethod_frame (agentContext : AgentContext)
    (u : Utils) (credentialAsJson credentialRequest : value) (w w1 : World)
    (r : Result string) :
  deriveVerificationMethod agentContext u credentialAsJson credentialRequest w
  = (r, w1) ->
  exists made, w1 = withCalls w made /\ derivationCalls made.
Proof.
  intros Hrun. unfold derivationCalls.
  destruct (fromJSON_W3cCredential u credentialAsJson) as [c|e] eqn:Hc.
  2:{ unfold deriveVerificationMethod in Hrun. run. rewrite Hc in Hrun.
      injection Hrun as _ <-. exists []. rewrite withCalls_nil. auto. }
  rewrite (deriveVerificationMethod_transformed agentContext u
             credentialAsJson credentialRequest w c Hc) in Hrun.
  cbv zeta in Hrun.
  destruct (resolveDidDocument _ _) as [document|e].
  2:{ injection Hrun as _ <-. eexists. split; [reflexivity|]. eauto. }
  destruct (get credentialRequest "options") as [options|e].
  2:{ injection Hrun as _ <-. eexists. split; [reflexivity|]. eauto. }
  destruct (get options "proofType") as [pt|e].
  2:{ injection Hrun as _ <-. eexists. split; [reflexivity|]. eauto. }
  exists [ResolveDidDocument (issuerId (issuer c));
          GetVerificationMethodTypesByProofType pt].
  split; [|eauto].
  destruct (getVerificationMethodTypesByProofType _ pt)
    as [[[|first others]|]|e];
    try destruct (findVerificationMethodByKeyType first document);
    now injection Hrun as _ <-.
Qed.

Lemma chooseVerificationMethod_frame (agentContext : AgentContext)
    (u : Utils) (formats : option CredentialFormats) (request : json)
    (w w1 : World) (r : Result string) :
  chooseVerificationMethod agentContext u formats request w = (r, w1) ->
  exists made,
    w1 = withCalls w made /\ derivationCalls made
    /\ (suppliedVerificationMethod formats <> None -> made = []).
Proof.
  intros Hrun. unfold chooseVerificationMethod in Hrun.
  destruct (suppliedVerificationMethod formats) as [supplied|].
  - injection Hrun as _ <-. exists []. rewrite withCalls_nil.
    unfold derivationCalls. auto.
  - run. destruct (get (Some request) "credential") as [cj|e].
    + apply deriveVerificationMethod_frame in Hrun.
      destruct Hrun as (made & -> & Hmade).
      exists made. repeat split; auto. congruence.
    + injection Hrun as _ <-. exists []. rewrite withCalls_nil.
      unfold derivationCalls. repeat split; auto.
Qed.

(** X12. Whatever [acceptRequest] is given and however it ends, it leaves
    the exchange record as it was, and the calls it makes are: at most the
    two calls of a derivation (the resolver, then the key-type table), and
    none of them when a verification method was supplied; then at most one
    call of the signing service, made last, and made whenever
    [acceptRequest] returns. It never calls the verifier or the store. *)
Theorem acceptRequest_frame (agentContext : AgentContext) (u : Utils)
    (formats : option CredentialFormats) (attachId : option string)
    (requestAttachment : V1Attachment) (w w' : World)
    (r : Result (CredentialFormatSpec * V1Attachment)) :
  acceptRequest agentContext u formats attachId requestAttachment w = (r, w') ->
  credentials w' = credentials w
  /\ exists derived signed,
       calls w' = (calls w ++ derived ++ signed)%list
       /\ derivationCalls derived
       /\ signingCalls signed
       /\ (suppliedVerificationMethod formats <> None -> derived = [])
       /\ (forall x, r = Returns x -> signed <> []).
Proof.
  intros Hrun.
  assert (Hquiet : forall made e,
             derivationCalls made ->
             (suppliedVerificationMethod formats <> None -> made = []) ->
             (Throws e, withCalls w made) = (r, w') ->
             credentials w' = credentials w
             /\ exists derived signed,
                  calls w' = (calls w ++ derived ++ signed)%list
                  /\ derivationCalls derived
                  /\ signingCalls signed
                  /\ (suppliedVerificationMethod formats <> None ->
                      derived = [])
                  /\ (forall x, r = Returns x -> signed <> [])).
  { intros made e Hmade Hsupplied [= <- <-]. split; [reflexivity|].
    exists made, []. rewrite List.app_nil_r. unfold signingCalls.
    repeat split; auto. discriminate. }
  destruct (getDataAsJson requestAttachment) as [request|e] eqn:Hreq.
  2:{ rewrite (acceptRequest_undecoded _ _ _ _ _ _ _ Hreq),
        <- (withCalls_nil w) in Hrun.
      apply (Hquiet [] e); unfold derivationCalls; auto. }
  destruct (chooseVerificationMethod agentContext u formats request w)
    as [[method|e] w1] eqn:Hchoice;
    destruct (chooseVerificationMethod_frame _ _ _ _ _ _ _ Hchoice)
      as (made & -> & Hmade & Hsupplied).
  2:{ rewrite (acceptRequest_not_chosen _ _ _ attachId _ _ _ _ _
                 Hreq Hchoice) in Hrun.
      now apply (Hquiet made e). }
  rewrite (acceptRequest_chosen _ _ _ attachId _ _ _ _ _ Hreq Hchoice)
    in Hrun.
  destruct (String.eqb method EmptyString);
    [now apply (Hquiet made _ Hmade Hsupplied Hrun)|].
  destruct (get (Some request) "options") as [options|e];
    [|now apply (Hquiet made e)].
  destruct (filterDefined options unsupportedFields) as [found|e];
    [|now apply (Hquiet made e)].
  destruct (Nat.ltb 0 (List.length found));
    [now apply (Hquiet made _ Hmade Hsupplied Hrun)|].
  destruct (get (Some request) "credential") as [cj|e];
    [|now apply (Hquiet made e)].
  destruct (fromJSON_W3cCredential u cj) as [c|e];
    [|now apply (Hquiet made e)].
  destruct (get options "proofType") as [pt|e];
    [|now apply (Hquiet made e)].
  cbv zeta in Hrun. clear Hquiet.
  assert (Hsigned : w' = withCalls (withCalls w made)
                           [SignCredential c pt method]).
  { destruct (signCredential _ c pt method); now injection Hrun as _ <-. }
  subst w'. split; [reflexivity|].
  exists made, [SignCredential c pt method].
  split; [unfold withCalls; cbn [calls]; now rewrite <- List.app_assoc|].
  unfold signingCalls. repeat split; eauto. discriminate.
Qed.

(** The sample request, without a supplied method: three calls. *)
Lemma acceptRequest_frame_witness :
  exists derived signed,
    calls (snd (acceptRequest sampleAgentContext sampleUtils None None
                  (getFormatData sampleDetail "request-0") emptyWorld))
    = (derived ++ signed)%list
    /\ derivationCalls derived /\ signingCalls signed.
Proof.
  destruct (acceptRequest_frame sampleAgentContext sampleUtils None None
              (getFormatData sampleDetail "request-0") emptyWorld
              _ _ (surjective_pairing _))
    as (_ & derived & signed & Hcalls & Hderived & Hsigned & _).
  exists derived, signed. auto.
Defined.

(** X13. An empty verification method, whether supplied by the caller or
    obtained by the derivation, is refused with the missing-method error:
    nothing is signed, and the options of the request are not looked at. *)
Theorem acceptRequest_empty_method (agentContext : AgentContext) (u : Utils)
    (formats : option CredentialFormats) (attachId : option string)
    (requestAttachment : V1Attachment) (w w1 : World) (request : json) :
  getDataAsJson requestAttachment = Returns request ->
  chooseVerificationMethod agentContext u formats request w
  = (Returns EmptyString, w1) ->
  acceptRequest agentContext u formats attachId requestAttachment w
  = (Throws (AriesFrameworkError
               "Missing verification method in credential data"), w1).
Proof.
  intros Hreq Hchoice.
  now rewrite (acceptRequest_chosen _ _ _ attachId _ _ _ _ _ Hreq Hchoice).
Qed.

(** A caller that supplies the empty string, for a request that also sets
    an unsupported option. *)
Lemma acceptRequest_empty_method_witness :
  acceptRequest sampleAgentContext sampleUtils
    (Some {| jsonld := Some {| verificationMethod := Some EmptyString |} |})
    None
    (getFormatData
       (sampleRequest "did:example:123"
          (sampleOptions ++ [("challenge", JStr "c1")]))
       "request-0")
    emptyWorld
  = (Throws (AriesFrameworkError
               "Missing verification method in credential data"),
     emptyWorld).
Proof.
  apply (acceptRequest_empty_method sampleAgentContext sampleUtils
           (Some {| jsonld := Some {| verificationMethod :=
                                        Some EmptyString |} |})
           None
           (getFormatData
              (sampleRequest "did:example:123"
                 (sampleOptions ++ [("challenge", JStr "c1")]))
              "request-0")
           emptyWorld emptyWorld
           (sampleRequest "did:example:123"
              (sampleOptions ++ [("challenge", JStr "c1")]))
           (getDataAsJson_getFormatData _ _) eq_refl).
Defined.

(** X14. [acceptRequest] does not validate the request it decodes. Once a
    non-empty verification method is obtained, a request whose options
    cannot be read (the request is not an object, or has no [options]
    member, or a [null] one) makes it throw a [TypeError]; nothing is
    signed. *)
Theorem acceptRequest_unreadable_options (agentContext : AgentContext)
    (u : Utils) (formats : option CredentialFormats)
    (attachId : option string) (requestAttachment : V1Attachment)
    (w w1 : World) (request : json) (method : string) :
  getDataAsJson requestAttachment = Returns request ->
  chooseVerificationMethod agentContext u formats request w
  = (Returns method, w1) ->
  method <> EmptyString ->
  readable (getOptional (Some request) "options") = false ->
  exists message,
    acceptRequest agentContext u formats attachId requestAttachment w
    = (Throws (TypeError message), w1).
Proof.
  intros Hreq Hchoice Hmethod Hunreadable.
  rewrite (acceptRequest_chosen _ _ _ attachId _ _ _ _ _ Hreq Hchoice).
  apply String.eqb_neq in Hmethod. rewrite Hmethod.
  destruct request as [| | | | |members]; try (eexists; reflexivity).
  change (get (Some (JObj members)) "options")
    with (Returns (getOptional (Some (JObj members)) "options")).
  cbv iota.
  unfold unsupportedFields. cbn [filterDefined].
  destruct (get_unreadable _ "challenge" Hunreadable) as (message & ->).
  exists message. reflexivity.
Qed.

(** A request without options, and a supplied method. *)
Lemma acceptRequest_unreadable_options_witness :
  exists message,
    acceptRequest sampleAgentContext sampleUtils
      (Some {| jsonld := Some {| verificationMethod :=
                                   Some "did:example:123#key-1" |} |})
      None
      (getFormatData
         (JObj [("credential", JObj (sampleClaims "did:example:123"))])
         "request-0")
      emptyWorld
    = (Throws (TypeError message), emptyWorld).
Proof.
  apply (acceptRequest_unreadable_options sampleAgentContext sampleUtils
           (Some {| jsonld := Some {| verificationMethod :=
                                        Some "did:example:123#key-1" |} |})
           None
           (getFormatData
              (JObj [("credential", JObj (sampleClaims "did:example:123"))])
              "request-0")
           emptyWorld emptyWorld
           (JObj [("credential", JObj (sampleClaims "did:example:123"))])
           "did:example:123#key-1"
           (getDataAsJson_getFormatData _ _) eq_refl).
  - discriminate.
  - reflexivity.
Defined.

Lemma filterDefined_nothing (options : value) (fields found : list string) :
  filterDefined options fields = Returns found ->
  Nat.ltb 0 (List.length found) = false ->
  forall field, In field fields -> get options field = Returns undefined.
Proof.
  revert found. induction fields as [|f fields IH]; intros found Hrun Hlen.
  - intros field [].
  - cbn [filterDefined] in Hrun.
    destruct (get options f) as [v|e] eqn:Hf; [|discriminate Hrun].
    cbn [bindR] in Hrun.
    destruct (filterDefined options fields) as [rest|e];
      [|discriminate Hrun].
    cbn [bindR] in Hrun. injection Hrun as <-.
    destruct v as [j|]; [discriminate Hlen|].
    intros field [<-|Hin]; [exact Hf|].
    now apply (IH rest).
Qed.

(** What a run of [acceptRequest] that returns has gone through. *)
Lemma acceptRequest_returns (agentContext : AgentContext) (u : Utils)
    (formats : option CredentialFormats) (attachId : option string)
    (requestAttachment : V1Attachment) (w w' : World)
    (format : CredentialFormatSpec) (attachment : V1Attachment) :
  acceptRequest agentContext u formats attachId requestAttachment w
  = (Returns (format, attachment), w') ->
  exists request options credentialAsJson c proofType method signed,
    getDataAsJson requestAttachment = Returns request
    /\ get (Some request) "options" = Returns options
    /\ (forall field, In field unsupportedFields ->
          get options field = Returns undefined)
    /\ get (Some request) "credential" = Returns credentialAsJson
    /\ fromJSON_W3cCredential u credentialAsJson = Returns c
    /\ get options "proofType" = Returns proofType
    /\ method <> EmptyString
    /\ signCredential (w3cCredentialService agentContext) c proofType method
       = Returns signed
    /\ format = newCredentialFormatSpec u attachId JSONLD_VC
    /\ attachment = getFormatData (stringifyView u signed)
                      (spec_attachId format).
Proof.
  intros Hrun.
  destruct (getDataAsJson requestAttachment) as [request|e] eqn:Hreq.
  2:{ rewrite (acceptRequest_undecoded _ _ _ _ _ _ _ Hreq) in Hrun.
      discriminate Hrun. }
  destruct (chooseVerificationMethod agentContext u formats request w)
    as [[method|e] w1] eqn:Hchoice.
  2:{ rewrite (acceptRequest_not_chosen _ _ _ attachId _ _ _ _ _
                 Hreq Hchoice) in Hrun. discriminate Hrun. }
  rewrite (acceptRequest_chosen _ _ _ attachId _ _ _ _ _ Hreq Hchoice)
    in Hrun.
  destruct (String.eqb method EmptyString) eqn:Hmethod;
    [discriminate Hrun|].
  destruct (get (Some request) "options") as [options|e] eqn:Hoptions;
    [|discriminate Hrun].
  destruct (filterDefined options unsupportedFields) as [found|e] eqn:Hfound;
    [|discriminate Hrun].
  destruct (Nat.ltb 0 (List.length found)) eqn:Hlen; [discriminate Hrun|].
  destruct (get (Some request) "credential") as [cj|e] eqn:Hcj;
    [|discriminate Hrun].
  destruct (fromJSON_W3cCredential u cj) as [c|e] eqn:Hc;
    [|discriminate Hrun].
  destruct (get options "proofType") as [pt|e] eqn:Hpt;
    [|discriminate Hrun].
  cbv zeta in Hrun.
  destruct (signCredential _ c pt method) as [signed|e] eqn:Hsign;
    [|discriminate Hrun].
  injection Hrun as <- <- _.
  exists request, options, cj, c, pt, method, signed.
  split; [reflexivity|]. split; [assumption|].
  split; [now apply (filterDefined_nothing options unsupportedFields found)|].
  split; [assumption|]. split; [assumption|]. split; [assumption|].
  split; [now apply String.eqb_neq|]. auto.
Qed.

(** X15. A request for which [acceptRequest] returns a credential set none
    of [challenge], [domain], [credentialStatus] and [created] in its
    options; the credential returned is the one the signing service
    produced for the transformed [credential] member of the request, the
    proof type of its options and a non-empty verification method; the
    attachment decodes to that credential, is tagged with the
    signed-credential format, and carries the id asked for, or else a
    minted one. *)
Theorem acceptRequest_issues_what_was_signed (agentContext : AgentContext)
    (u : Utils) (formats : option CredentialFormats)
    (attachId : option string) (requestAttachment : V1Attachment)
    (w w' : World) (format : CredentialFormatSpec)
    (attachment : V1Attachment) :
  acceptRequest agentContext u formats attachId requestAttachment w
  = (Returns (format, attachment), w') ->
  exists request c method signed,
    getDataAsJson requestAttachment = Returns request
    /\ (let options := getOptional (Some request) "options" in
        readable options = true
        /\ getOptional options "challenge" = undefined
        /\ getOptional options "domain" = undefined
        /\ getOptional options "credentialStatus" = undefined
        /\ getOptional options "created" = undefined
        /\ fromJSON_W3cCredential u (getOptional (Some request) "credential")
           = Returns c
        /\ signCredential (w3cCredentialService agentContext) c
             (getOptional options "proofType") method
           = Returns signed)
    /\ method <> EmptyString
    /\ getDataAsJson attachment = Returns (stringifyView u signed)
    /\ spec_format format = "aries/ld-proof-vc@1.0"
    /\ attachment_id attachment = spec_attachId format
    /\ spec_attachId format
       = match attachId with Some i => i | None => uuid u end.
Proof.
  intros Hrun.
  destruct (acceptRequest_returns _ _ _ _ _ _ _ _ _ Hrun)
    as (request & options & cj & c & pt & method & signed
        & Hreq & Hoptions & Hnone & Hcj & Hc & Hpt & Hmethod & Hsign
        & -> & ->).
  exists request, c, method, signed.
  split; [assumption|].
  assert (Hread : readable options = true).
  { destruct options as [[]|]; try reflexivity; discriminate Hpt. }
  assert (Hrequest : exists members, request = JObj members).
  { destruct request; try discriminate Hoptions;
      cbn [get] in Hoptions; injection Hoptions as <-;
      try discriminate Hread. eauto. }
  destruct Hrequest as (members & ->).
  cbn [get] in Hoptions, Hcj. injection Hoptions as <-. injection Hcj as <-.
  cbv zeta. cbn [getOptional].
  assert (Hfield : forall field, In field unsupportedFields ->
             getOptional (lookup "options" members) field = undefined).
  { intros field Hin. specialize (Hnone field Hin).
    rewrite (get_readable _ field Hread) in Hnone. now injection Hnone. }
  rewrite (get_readable _ "proofType" Hread) in Hpt. injection Hpt as <-.
  unfold unsupportedFields in Hfield.
  repeat split; auto.
  - apply Hfield. cbn. auto.
  - apply Hfield. cbn. auto.
  - apply Hfield. cbn. auto.
  - apply Hfield. cbn. auto.
  - apply getDataAsJson_getFormatData.
Qed.

(** The sample request, accepted with a supplied method. *)
Lemma acceptRequest_issues_witness :
  exists format attachment signed,
    fst (acceptRequest sampleAgentContext sampleUtils
           (Some {| jsonld := Some {| verificationMethod :=
                                        Some "did:example:123#key-2" |} |})
           (Some "credential-9")
           (getFormatData sampleDetail "request-0") emptyWorld)
    = Returns (format, attachment)
    /\ getDataAsJson attachment = Returns (stringifyView sampleUtils signed)
    /\ attachment_id attachment = "credential-9".
Proof.
  destruct (acceptRequest sampleAgentContext sampleUtils
              (Some {| jsonld := Some {| verificationMethod :=
                                           Some "did:example:123#key-2" |} |})
              (Some "credential-9")
              (getFormatData sampleDetail "request-0") emptyWorld)
    as [[[format attachment]|e] w'] eqn:Hrun.
  - destruct (acceptRequest_issues_what_was_signed _ _ _ _ _ _ _ _ _ Hrun)
      as (request & c & method & signed & _ & _ & _ & Hdecode & _
          & Hid & Hasked).
    exists format, attachment, signed.
    split; [reflexivity|]. split; [exact Hdecode|]. now rewrite Hid.
  - exfalso. apply (f_equal fst) in Hrun. cbn [fst] in Hrun.
    revert Hrun. vm_compute. discriminate.
Defined.

(** X16. Every operation that returns a format descriptor and an
    attachment returns a descriptor whose format [supportsFormat] accepts
    (the detail format for the five negotiation operations, the
    signed-credential format for [acceptRequest]) and whose attachment id
    is the id of the attachment; the attachment has the JSON media type. *)
Theorem produced_formats_are_supported (agentContext : AgentContext)
    (u : Utils) (format : CredentialFormatSpec) (attachment : V1Attachment) :
  let wellFormed :=
    supportsFormat (spec_format format) = true
    /\ attachment_id attachment = spec_attachId format
    /\ mimeType attachment = "application/json" in
  (forall credentialFormats attachId,
      createProposal u credentialFormats = Returns (format, attachment)
      \/ createOffer u credentialFormats attachId
         = Returns (format, attachment)
      \/ createRequest u credentialFormats = Returns (format, attachment) ->
      wellFormed /\ spec_format format = JSONLD_VC_DETAIL)
  /\ (forall attachId received,
         acceptProposal u attachId received = Returns (format, attachment)
         \/ acceptOffer u attachId received = Returns (format, attachment) ->
         wellFormed /\ spec_format format = JSONLD_VC_DETAIL)
  /\ (forall formats attachId requestAttachment w w',
         acceptRequest agentContext u formats attachId requestAttachment w
         = (Returns (format, attachment), w') ->
         wellFormed /\ spec_format format = JSONLD_VC).
Proof.
  cbv zeta. split; [|split].
  - intros credentialFormats attachId Hcreated.
    destruct (created_from_payload u credentialFormats attachId format
                attachment Hcreated)
      as (payload & id & _ & _ & _ & -> & ->).
    repeat split.
  - intros attachId received [Hrun|Hrun].
    + unfold acceptProposal in Hrun.
      destruct (getDataAsJson received) as [detail|e]; [|discriminate Hrun].
      cbn [bindR] in Hrun.
      destruct (fromJSON_JsonLdCredentialDetail u (Some detail)) as [[]|e];
        [|discriminate Hrun].
      cbn [bindR] in Hrun. injection Hrun as <- <-. repeat split.
    + unfold acceptOffer in Hrun.
      destruct (getDataAsJson received) as [detail|e]; [|discriminate Hrun].
      cbn [bindR] in Hrun.
      destruct (fromJSON_JsonLdCredentialDetail u (Some detail)) as [[]|e];
        [|discriminate Hrun].
      cbn [bindR] in Hrun. injection Hrun as <- <-. repeat split.
  - intros formats attachId requestAttachment w w' Hrun.
    destruct (acceptRequest_returns _ _ _ _ _ _ _ _ _ Hrun)
      as (request & options & cj & c & pt & method & signed
          & _ & _ & _ & _ & _ & _ & _ & _ & -> & ->).
    repeat split.
Qed.

(** X17. The derivation uses nothing of the issuer but its identifier: two
    credentials whose issuers, a bare string or an object with an [id],
    have the same identifier are given the same verification method, or
    the same failure, with the same calls. *)
Theorem deriveVerificationMethod_issuer_id_only (agentContext : AgentContext)
    (u : Utils) (credentialAsJson credentialAsJson' : value)
    (credentialRequest : value) (w : World) (c c' : W3cCredential) :
  fromJSON_W3cCredential u credentialAsJson = Returns c ->
  fromJSON_W3cCredential u credentialAsJson' = Returns c' ->
  issuerId (issuer c) = issuerId (issuer c') ->
  deriveVerificationMethod agentContext u credentialAsJson credentialRequest w
  = deriveVerificationMethod agentContext u credentialAsJson'
      credentialRequest w.
Proof.
  intros Hc Hc' Hid.
  rewrite (deriveVerificationMethod_transformed agentContext u
             credentialAsJson credentialRequest w c Hc),
    (deriveVerificationMethod_transformed agentContext u
       credentialAsJson' credentialRequest w c' Hc').
  cbv zeta. now rewrite Hid.
Qed.

(** An issuer given as an object derives the method of the same issuer
    given as a string. *)
Lemma deriveVerificationMethod_issuer_object_witness :
  deriveVerificationMethod sampleAgentContext sampleUtils
    (Some (JObj [("issuer", JObj [("id", JStr "did:example:123");
                                  ("name", JStr "Example University")])]))
    (Some sampleDetail) emptyWorld
  = deriveVerificationMethod sampleAgentContext sampleUtils
      (Some (JObj (sampleClaims "did:example:123")))
      (Some sampleDetail) emptyWorld.
Proof.
  apply (deriveVerificationMethod_issuer_id_only sampleAgentContext
           sampleUtils
           (Some (JObj [("issuer",
                         JObj [("id", JStr "did:example:123");
                               ("name", JStr "Example University")])]))
           (Some (JObj (sampleClaims "did:example:123")))
           (Some sampleDetail) emptyWorld
           {| issuer := IssuerObject "did:example:123";
              plain := JObj [("issuer",
                              JObj [("id", JStr "did:example:123");
                                    ("name", JStr "Example University")])] |}
           sampleUnsigned eq_refl eq_refl eq_refl).
Defined.
